(** * pptx2img: the conversion coordinator [topng]

    A shallow embedding of [src/lib/pptx2img/pptx2img.py].  The function
    [topng] drives PowerPoint through COM; everything it does is either a
    Python-level computation (truthiness, [max]/[min], float arithmetic,
    [int()], string formatting) or a call to the host (file system,
    COM automation, screen metrics).  Python computations are embedded as
    Rocq functions, host calls are read from a [Host] record and logged in
    a trace, and exceptions are threaded through a small trace-and-error
    monad. *)

From Stdlib Require Import ZArith List String Bool Lia.
From Stdlib Require Import DecimalString DecimalZ DecimalPos.
From Stdlib Require Import Floats Uint63.
Import ListNotations.

Local Open Scope string_scope.
Local Open Scope Z_scope.

#[local] Set Warnings "-register-all".

(** ** Python values and exceptions *)

(** Every exception below derives from Python's [Exception], so each of them
    is caught by an [except Exception] clause. *)
Inductive PyException : Type :=
| TypeError (msg : string)
| ValueError (msg : string)
| OverflowError (msg : string)
| ZeroDivisionError (msg : string)
| AttributeError (msg : string)
| IndexError (msg : string)
| OSError (msg : string)
| com_error (msg : string).

(** [str(e)], as used by ["... %s" % e]. *)
Definition str_exc (e : PyException) : string :=
  match e with
  | TypeError m | ValueError m | OverflowError m | ZeroDivisionError m
  | AttributeError m | IndexError m | OSError m | com_error m => m
  end.

(** The values a caller can pass for the [range] and [scale] arguments.
    [PyBuiltinRange] is the builtin [range] type itself, the one callable
    the model knows. *)
Inductive PyValue : Type :=
| PyNone
| PyBool (b : bool)
| PyInt (z : Z)
| PyFloat (f : float)
| PyStr (s : string)
| PyList (l : list PyValue)
| PyTuple (l : list PyValue)
| PyBuiltinRange.

Inductive result (A : Type) : Type :=
| Ok (a : A)
| Raise (e : PyException).
Arguments Ok {A} a.
Arguments Raise {A} e.

Definition rbind {A B} (r : result A) (k : A -> result B) : result B :=
  match r with
  | Ok a => k a
  | Raise e => Raise e
  end.

Declare Scope result_scope.
Delimit Scope result_scope with result.
Notation "x <~ c ;; k" := (rbind c (fun x => k))
  (at level 61, c at next level, right associativity) : result_scope.

Module Py.

Definition type_name (v : PyValue) : string :=
  match v with
  | PyNone => "NoneType"
  | PyBool _ => "bool"
  | PyInt _ => "int"
  | PyFloat _ => "float"
  | PyStr _ => "str"
  | PyList _ => "list"
  | PyTuple _ => "tuple"
  | PyBuiltinRange => "type"
  end.

(** Truth value testing: [None], [False], zero of any numeric type and
    empty sequences are false. *)
Definition truthy (v : PyValue) : bool :=
  match v with
  | PyNone => false
  | PyBool b => b
  | PyInt z => negb (z =? 0)
  | PyFloat f => negb (f =? 0)%float
  | PyStr s => negb (String.eqb s "")
  | PyList l | PyTuple l => match l with [] => false | _ => true end
  | PyBuiltinRange => true
  end.

(** [isinstance(v, list)] *)
Definition is_list (v : PyValue) : bool :=
  match v with PyList _ => true | _ => false end.

(** [len(v)] *)
Definition len (v : PyValue) : result Z :=
  match v with
  | PyStr s => Ok (Z.of_nat (String.length s))
  | PyList l | PyTuple l => Ok (Z.of_nat (List.length l))
  | _ => Raise (TypeError ("object of type '" ++ type_name v ++ "' has no len()"))
  end.

(** [v[i]] for an index [i] that is not negative. *)
Definition getitem (v : PyValue) (i : nat) : result PyValue :=
  match v with
  | PyList l =>
      match nth_error l i with
      | Some x => Ok x
      | None => Raise (IndexError "list index out of range")
      end
  | PyTuple l =>
      match nth_error l i with
      | Some x => Ok x
      | None => Raise (IndexError "tuple index out of range")
      end
  | PyStr s =>
      match String.get i s with
      | Some c => Ok (PyStr (String c ""))
      | None => Raise (IndexError "string index out of range")
      end
  | _ => Raise (TypeError ("'" ++ type_name v ++ "' object is not subscriptable"))
  end.

(** ["%d" % z] for an int. *)
Definition string_of_Z (z : Z) : string :=
  NilZero.string_of_int (Z.to_int z).

(** *** Floats

    Python's [float] is IEEE 754 binary64, which is what Rocq's primitive
    [float] is.  Conversions go through [spec_float]. *)

(** [float(z)]: correctly rounded, [OverflowError] beyond the range. *)
Definition float_of_int (z : Z) : result float :=
  match binary_normalize prec emax z 0 false with
  | S754_infinity _ => Raise (OverflowError "int too large to convert to float")
  | sf => Ok (SF2Prim sf)
  end.

(** The integer a finite float with mantissa [m] and exponent [e]
    truncates to, towards zero. *)
Definition trunc_mag (m : positive) (e : Z) : Z :=
  if 0 <=? e then Z.pos m * 2 ^ e else Z.pos m / 2 ^ (- e).

(** [int(f)]: truncation towards zero. *)
Definition int_of_float (f : float) : result Z :=
  match Prim2SF f with
  | S754_zero _ => Ok 0
  | S754_finite s m e => Ok (if s then - trunc_mag m e else trunc_mag m e)
  | S754_infinity _ =>
      Raise (OverflowError "cannot convert float infinity to integer")
  | S754_nan => Raise (ValueError "cannot convert float NaN to integer")
  end.

(** [math.floor(f)], for comparison with [int_of_float]: rounds towards
    minus infinity, undefined on infinities and NaN. *)
Definition floor_of_float (f : float) : option Z :=
  match Prim2SF f with
  | S754_zero _ => Some 0
  | S754_finite s m e =>
      Some (if 0 <=? e
            then (if s then - (Z.pos m * 2 ^ e) else Z.pos m * 2 ^ e)
            else (if s then Z.neg m else Z.pos m) / 2 ^ (- e))
  | _ => None
  end.

(** Exact comparison of a float with an int, as [float.__lt__] and
    friends do it; [None] for NaN, which is unordered. *)
Definition compare_float_int (f : float) (z : Z) : option comparison :=
  match Prim2SF f with
  | S754_nan => None
  | S754_zero _ => Some (0 ?= z)
  | S754_infinity s => Some (if s then Lt else Gt)
  | S754_finite s m e =>
      let v := if s then Z.neg m else Z.pos m in
      Some (if 0 <=? e then (v * 2 ^ e ?= z) else (v ?= z * 2 ^ (- e)))
  end.

Definition not_supported (op : string) (v : PyValue) (rhs : string) : PyException :=
  TypeError ("'" ++ op ++ "' not supported between instances of '"
             ++ type_name v ++ "' and '" ++ rhs ++ "'").

(** [v > z] for an int [z]. *)
Definition gt_int (v : PyValue) (z : Z) : result bool :=
  match v with
  | PyBool b => Ok (z <? Z.b2z b)
  | PyInt x => Ok (z <? x)
  | PyFloat f =>
      Ok (match compare_float_int f z with Some Gt => true | _ => false end)
  | _ => Raise (not_supported ">" v "int")
  end.

(** [v < z] for an int [z]. *)
Definition lt_int (v : PyValue) (z : Z) : result bool :=
  match v with
  | PyBool b => Ok (Z.b2z b <? z)
  | PyInt x => Ok (x <? z)
  | PyFloat f =>
      Ok (match compare_float_int f z with Some Lt => true | _ => false end)
  | _ => Raise (not_supported "<" v "int")
  end.

(** [max(z, v)]: the second argument wins only when strictly greater. *)
Definition max_int (z : Z) (v : PyValue) : result PyValue :=
  (b <~ gt_int v z ;; Ok (if b then v else PyInt z))%result.

(** [min(z, v)]: the second argument wins only when strictly smaller. *)
Definition min_int (z : Z) (v : PyValue) : result PyValue :=
  (b <~ lt_int v z ;; Ok (if b then v else PyInt z))%result.

(** ["%d" % v] *)
Definition format_d (v : PyValue) : result string :=
  match v with
  | PyBool b => Ok (string_of_Z (Z.b2z b))
  | PyInt z => Ok (string_of_Z z)
  | PyFloat f => (z <~ int_of_float f ;; Ok (string_of_Z z))%result
  | _ => Raise (TypeError ("%d format: a real number is required, not "
                           ++ type_name v))
  end.

(** [v + 1] *)
Definition add_one (v : PyValue) : result PyValue :=
  match v with
  | PyBool b => Ok (PyInt (Z.b2z b + 1))
  | PyInt z => Ok (PyInt (z + 1))
  | PyFloat f => Ok (PyFloat (f + 1)%float)
  | _ => Raise (TypeError ("unsupported operand type(s) for +: '"
                           ++ type_name v ++ "' and 'int'"))
  end.

(** [operator.index(v)], what the builtin [range] applies to its
    arguments. *)
Definition index (v : PyValue) : result Z :=
  match v with
  | PyBool b => Ok (Z.b2z b)
  | PyInt z => Ok z
  | _ => Raise (TypeError ("'" ++ type_name v
                           ++ "' object cannot be interpreted as an integer"))
  end.

(** The integers of the builtin [range(a, b)], in order. *)
Definition range_list (a b : Z) : list Z :=
  map (fun k => a + Z.of_nat k) (seq 0 (Z.to_nat (b - a))).

(** The call [f(a, b)] followed by iteration over its result.  Of the
    values of [PyValue] only the builtin [range] is callable; calling any of
    the others is a [TypeError], whatever the arguments are.  Other
    callables (a function, a class, an instance with [__call__]) are not
    values of the model. *)
Definition call2 (f a b : PyValue) : result (list Z) :=
  match f with
  | PyBuiltinRange =>
      (x <~ index a ;; y <~ index b ;; Ok (range_list x y))%result
  | _ => Raise (TypeError ("'" ++ type_name f ++ "' object is not callable"))
  end.

(** [f * v] for a float [f]. *)
Definition float_mul (f : float) (v : PyValue) : result float :=
  match v with
  | PyBool b => Ok (f * (if b then 1 else 0))%float
  | PyInt z => (x <~ float_of_int z ;; Ok (f * x)%float)%result
  | PyFloat x => Ok (f * x)%float
  | PyStr _ | PyList _ | PyTuple _ =>
      Raise (TypeError "can't multiply sequence by non-int of type 'float'")
  | _ => Raise (TypeError ("unsupported operand type(s) for *: 'float' and '"
                           ++ type_name v ++ "'"))
  end.

(** [a / b] on floats. *)
Definition float_truediv (a b : float) : result float :=
  if (b =? 0)%float then Raise (ZeroDivisionError "float division by zero")
  else Ok (a / b)%float.

(** [z / f] for an int [z] and a float [f]. *)
Definition int_truediv (z : Z) (f : float) : result float :=
  (x <~ float_of_int z ;; float_truediv x f)%result.

(** [z * f] for an int [z] and a float [f]. *)
Definition int_mul (z : Z) (f : float) : result float :=
  (x <~ float_of_int z ;; Ok (x * f)%float)%result.

End Py.

(** ** The host: file system, COM automation, screen metrics *)

(** What a presentation opened through COM answers.  [Slides i] and
    [Export i path w h] say which exception, if any, [presentation.Slides(i)]
    and [slide.Export(path, "PNG", w, h)] raise; [Close] the same for
    [presentation.Close()]. *)
Record Presentation : Type := {
  Slides_Count : Z;
  SlideWidth : float;
  SlideHeight : float;
  Slides : Z -> option PyException;
  Export : Z -> string -> Z -> Z -> option PyException;
  Close : option PyException
}.

(** The machine [topng] runs on.  [exists_] is [os.path.exists] on the file
    system the call starts with, [makedirs] and [Dispatch] give the
    exception these calls raise, if any, [user32] is [ctypes.windll.user32]
    (or the exception looking it up raises) with its [GetSystemMetrics]. *)
Record Host : Type := {
  abspath : string -> string;
  basename : string -> string;
  join : string -> string -> string;
  exists_ : string -> bool;
  makedirs : string -> option PyException;
  Dispatch : option PyException;
  Presentations_Open : string -> PyException + Presentation;
  user32 : PyException + (Z -> Z)
}.

(** ** Traces *)

Inductive ExternalCall : Type :=
| os_makedirs (path : string)
| win32com_Dispatch (progid : string)
| Open (path : string) (WithWindow : bool)
| Slides_Item (i : Z)
| Slide_Export (i : Z) (path fmt : string) (w h : Z)
| Presentation_Close.

(** An event is a line printed on the console or a call to the host with
    its success. *)
Inductive Event : Type :=
| Print (line : string)
| Call (c : ExternalCall) (ok : bool).

(** A run: the events so far and how the computation ended. *)
Definition Run (A : Type) : Type := (list Event * result A)%type.

Definition ret {A} (a : A) : Run A := ([], Ok a).

Definition bind {A B} (m : Run A) (k : A -> Run B) : Run B :=
  match m with
  | (t, Ok a) => let (t', r) := k a in ((t ++ t')%list, r)
  | (t, Raise e) => (t, Raise e)
  end.

Definition lift {A} (r : result A) : Run A := ([], r).

(** [print(line)]; writing to the console is taken to succeed. *)
Definition print (line : string) : Run unit := ([Print line], Ok tt).

Definition host_call (c : ExternalCall) (err : option PyException) : Run unit :=
  match err with
  | None => ([Call c true], Ok tt)
  | Some e => ([Call c false], Raise e)
  end.

(** [try: m  except Exception as e: handler e] *)
Definition try_except {A} (m : Run A) (handler : PyException -> Run A) : Run A :=
  match m with
  | (t, Raise e) => let (t', r) := handler e in ((t ++ t')%list, r)
  | done => done
  end.

(** [try: m  finally: fin]: an exception of [fin] replaces the outcome of
    [m]. *)
Definition try_finally {A} (m : Run A) (fin : Run unit) : Run A :=
  match m, fin with
  | (t, r), (t', Ok _) => ((t ++ t')%list, r)
  | (t, _), (t', Raise e) => ((t ++ t')%list, Raise e)
  end.

Declare Scope run_scope.
Delimit Scope run_scope with run.
Notation "x <- c ;; k" := (bind c (fun x => k))
  (at level 61, c at next level, right associativity) : run_scope.
Notation "' pat <- c ;; k" := (bind c (fun x => let 'pat := x in k))
  (at level 61, pat pattern, c at next level, right associativity) : run_scope.
Notation "c ;; k" := (bind c (fun _ => k))
  (at level 61, right associativity) : run_scope.
Local Open Scope run_scope.

Definition trace {A} (m : Run A) : list Event := fst m.
Definition outcome {A} (m : Run A) : result A := snd m.

(** ** [topng] *)

(** Step 4: the slide range.  [range] is the caller's argument,
    [total_slides] the document's slide count.  The three tests of the
    condition are evaluated left to right and stop at the first false one. *)
Definition slide_range (range : PyValue) (total_slides : Z)
  : result (PyValue * PyValue) :=
  let start_slide := PyInt 1 in
  let end_slide := PyInt total_slides in
  if Py.truthy range then
    if Py.is_list range then
      (n <~ Py.len range ;;
       if n =? 2 then
         r0 <~ Py.getitem range 0 ;;
         start_slide <~ Py.max_int 1 r0 ;;
         r1 <~ Py.getitem range 1 ;;
         end_slide <~ Py.min_int total_slides r1 ;;
         Ok (start_slide, end_slide)
       else Ok (start_slide, end_slide))%result
    else Ok (start_slide, end_slide)
  else Ok (start_slide, end_slide).

(** [ctypes] hands the value of a foreign function back as a C [int]. *)
Definition c_int (z : Z) : Z := (z + 2 ^ 31) mod 2 ^ 32 - 2 ^ 31.

(** The body of the inner [try] of step 5: the size derived from the long
    edge of the screen. *)
Definition auto_resolution (h : Host) (slide_width slide_height : float)
  : Run (Z * Z) :=
  match user32 h with
  | inl e => lift (Raise e)
  | inr GetSystemMetrics =>
      let screen_w := c_int (GetSystemMetrics 0) in
      let screen_h := c_int (GetSystemMetrics 1) in
      let screen_long := Z.max screen_w screen_h in
      slide_ratio <- lift (Py.float_truediv slide_width slide_height) ;;
      target <-
        (if (1 <=? slide_ratio)%float then
           q <- lift (Py.int_truediv screen_long slide_ratio) ;;
           target_h <- lift (Py.int_of_float q) ;;
           ret (screen_long, target_h)
         else
           q <- lift (Py.int_mul screen_long slide_ratio) ;;
           target_w <- lift (Py.int_of_float q) ;;
           ret (target_w, screen_long)) ;;
      print ("Mode: Auto-Resolution (Matched to Screen Long Edge: "
             ++ Py.string_of_Z screen_long ++ " px)") ;;
      ret target
  end.

(** The [except] branch of the inner [try]: twice the slide size. *)
Definition fallback_resolution (slide_width slide_height : float) : Run (Z * Z) :=
  w2 <- lift (Py.float_mul slide_width (PyInt 2)) ;;
  target_w <- lift (Py.int_of_float w2) ;;
  h2 <- lift (Py.float_mul slide_height (PyInt 2)) ;;
  target_h <- lift (Py.int_of_float h2) ;;
  print "Mode: Fallback Resolution (2x)" ;;
  ret (target_w, target_h).

(** The [else] branch of step 5: the slide size times [scale]. *)
Definition manual_scale (slide_width slide_height : float) (scale : PyValue)
  : Run (Z * Z) :=
  ws <- lift (Py.float_mul slide_width scale) ;;
  target_w <- lift (Py.int_of_float ws) ;;
  hs <- lift (Py.float_mul slide_height scale) ;;
  target_h <- lift (Py.int_of_float hs) ;;
  d <- lift (Py.format_d scale) ;;
  print ("Mode: Manual Scale (" ++ d ++ "x)") ;;
  ret (target_w, target_h).

(** Step 5: the target resolution. *)
Definition target_resolution (h : Host) (slide_width slide_height : float)
    (scale : PyValue) : Run (Z * Z) :=
  if negb (Py.truthy scale) then
    try_except (auto_resolution h slide_width slide_height)
               (fun _ => fallback_resolution slide_width slide_height)
  else
    manual_scale slide_width slide_height scale.

Definition image_name (i : Z) : string := "Slide_" ++ Py.string_of_Z i ++ ".png".

(** Step 6: the body of the [for] loop, over the indices still to visit. *)
Fixpoint export_loop (h : Host) (presentation : Presentation)
    (output_path : string) (target_w target_h : Z)
    (indices : list Z) (count : Z) : Run Z :=
  match indices with
  | [] => ret count
  | i :: rest =>
      host_call (Slides_Item i) (Slides presentation i) ;;
      let image_path := join h output_path (image_name i) in
      host_call (Slide_Export i image_path "PNG" target_w target_h)
                (Export presentation i image_path target_w target_h) ;;
      print ("Saved: " ++ image_name i) ;;
      export_loop h presentation output_path target_w target_h rest (count + 1)
  end.

(** Steps 4 to 6, everything the outer [try] runs once the presentation is
    open.  The [for] loop calls the parameter [range], which shadows the
    builtin of that name. *)
Definition convert (h : Host) (presentation : Presentation)
    (pptx output_path : string) (range scale : PyValue) : Run unit :=
  let total_slides := Slides_Count presentation in
  '(start_slide, end_slide) <- lift (slide_range range total_slides) ;;
  let slide_width := SlideWidth presentation in
  let slide_height := SlideHeight presentation in
  '(target_w, target_h) <- target_resolution h slide_width slide_height scale ;;
  print ("Processing '" ++ basename h pptx ++ "'...") ;;
  print ("Target Size: " ++ Py.string_of_Z target_w ++ "x"
         ++ Py.string_of_Z target_h ++ " px") ;;
  s <- lift (Py.format_d start_slide) ;;
  e <- lift (Py.format_d end_slide) ;;
  print ("Converting slides " ++ s ++ " to " ++ e ++ "...") ;;
  stop <- lift (Py.add_one end_slide) ;;
  indices <- lift (Py.call2 range start_slide stop) ;;
  count <- export_loop h presentation output_path target_w target_h indices 0 ;;
  print ("Done! " ++ Py.string_of_Z count ++ " images saved to '"
         ++ output_path ++ "'.").

(** The outer [try ... except Exception ... finally]; [presentation] is the
    local variable of that name, [None] until [Open] has returned.  A COM
    dispatch object is always true, so [if presentation:] asks whether
    [Open] has returned. *)
Definition open_and_convert (h : Host) (pptx pptx_path output_path : string)
    (range scale : PyValue) : Run unit :=
  let '(presentation, body) :=
    match Presentations_Open h pptx_path with
    | inl e => (None, host_call (Open pptx_path false) (Some e))
    | inr p => (Some p,
                host_call (Open pptx_path false) None ;;
                convert h p pptx output_path range scale)
    end in
  try_finally
    (try_except body
       (fun e => print ("An error occurred during conversion: " ++ str_exc e)))
    (match presentation with
     | Some p => host_call Presentation_Close (Close p)
     | None => ret tt
     end).

Definition topng (h : Host) (pptx output_dir : string) (range scale : PyValue)
  : Run unit :=
  let pptx_path := abspath h pptx in
  let output_path := abspath h output_dir in
  if negb (exists_ h pptx_path) then
    print ("Error: File '" ++ pptx_path ++ "' not found.")
  else
    (if negb (exists_ h output_path) then
       host_call (os_makedirs output_path) (makedirs h output_path) ;;
       print ("Created output directory: " ++ output_path)
     else ret tt) ;;
    powerpoint <-
      try_except
        (host_call (win32com_Dispatch "PowerPoint.Application") (Dispatch h) ;;
         ret true)
        (fun e =>
           print ("Error: Could not initialize PowerPoint. "
                  ++ "Make sure Microsoft PowerPoint is installed.") ;;
           print ("Details: " ++ str_exc e) ;;
           ret false) ;;
    if powerpoint : bool
    then open_and_convert h pptx pptx_path output_path range scale
    else ret tt.

(** ** Observations on traces *)

Definition is_close (ev : Event) : bool :=
  match ev with Call Presentation_Close _ => true | _ => false end.

Definition is_open_ok (ev : Event) : bool :=
  match ev with Call (Open _ _) true => true | _ => false end.

(** The document was opened: some [Open] call returned. *)
Definition opened (t : list Event) : bool := existsb is_open_ok t.

(** How many times [presentation.Close()] was called. *)
Definition closes (t : list Event) : nat := List.length (filter is_close t).

(** The image files written: the paths of the [Export] calls that
    returned, in order. *)
Fixpoint exported (t : list Event) : list string :=
  match t with
  | [] => []
  | Call (Slide_Export _ path _ _ _) true :: t' => path :: exported t'
  | _ :: t' => exported t'
  end.

(** Calls into PowerPoint, of any kind. *)
Definition is_powerpoint_call (ev : Event) : bool :=
  match ev with
  | Call (os_makedirs _) _ | Print _ => false
  | Call _ _ => true
  end.

Definition is_makedirs (ev : Event) : bool :=
  match ev with Call (os_makedirs _) _ => true | _ => false end.

(** What steps 4 to 6 may log: console lines, slide lookups and exports. *)
Definition conversion_event (ev : Event) : Prop :=
  match ev with
  | Print _ | Call (Slides_Item _) _ | Call (Slide_Export _ _ _ _ _) _ => True
  | _ => False
  end.

Definition is_print (ev : Event) : Prop :=
  match ev with Print _ => True | _ => False end.

(** ** Sample hosts, used to run the model on concrete inputs *)

Module Samples.

(** A three-slide 16:9 deck that exports and closes without error. *)
Definition deck : Presentation := {|
  Slides_Count := 3;
  SlideWidth := 960;
  SlideHeight := 540;
  Slides := fun i =>
    if (1 <=? i) && (i <=? 3) then None
    else Some (com_error "Slides.Item : Integer out of range.");
  Export := fun _ _ _ _ => None;
  Close := None
|}.

(** The same deck on a disk that fills up at the second slide. *)
Definition deck_disk_full : Presentation := {|
  Slides_Count := 3;
  SlideWidth := 960;
  SlideHeight := 540;
  Slides := Slides deck;
  Export := fun i _ _ _ =>
    if i =? 2 then Some (com_error "Slide.Export : disk full") else None;
  Close := None
|}.

(** A ten-slide deck. *)
Definition deck10 : Presentation := {|
  Slides_Count := 10;
  SlideWidth := 960;
  SlideHeight := 540;
  Slides := fun _ => None;
  Export := fun _ _ _ _ => None;
  Close := None
|}.

(** A deck whose [Close] fails. *)
Definition deck_stuck : Presentation := {|
  Slides_Count := 3;
  SlideWidth := 960;
  SlideHeight := 540;
  Slides := Slides deck;
  Export := Export deck;
  Close := Some (com_error "Presentation.Close : failed")
|}.

(** A Windows machine with PowerPoint and a 1920x1080 screen; the only
    file is [C:\work\deck.pptx]. *)
Definition office_pc (p : Presentation) : Host := {|
  abspath := fun path => "C:\work\" ++ path;
  basename := fun path => path;
  join := fun dir name => dir ++ "\" ++ name;
  exists_ := fun path => String.eqb path "C:\work\deck.pptx";
  makedirs := fun _ => None;
  Dispatch := None;
  Presentations_Open := fun _ => inr p;
  user32 := inr (fun n => if n =? 0 then 1920 else 1080)
|}.

(** The same machine with a read-only working directory. *)
Definition locked_pc : Host := {|
  abspath := abspath (office_pc deck);
  basename := basename (office_pc deck);
  join := join (office_pc deck);
  exists_ := exists_ (office_pc deck);
  makedirs := fun _ => Some (OSError "[WinError 5] Access is denied");
  Dispatch := None;
  Presentations_Open := fun _ => inr deck;
  user32 := user32 (office_pc deck)
|}.

End Samples.

(** ** Auxiliary notions for the statements *)

Definition close_event (p : Presentation) : Event :=
  Call Presentation_Close (match Close p with None => true | Some _ => false end).

Definition close_outcome (p : Presentation) : result unit :=
  match Close p with None => Ok tt | Some e => Raise e end.

(** What the outer [try] and its [except] clause log after [Open] has
    returned. *)
Definition conversion_log (h : Host) (p : Presentation)
    (pptx output_path : string) (range scale : PyValue) : list Event :=
  trace (try_except (convert h p pptx output_path range scale)
           (fun e =>
              print ("An error occurred during conversion: " ++ str_exc e))).

(** What step 1 logs when it succeeds. *)
Definition output_dir_events (h : Host) (output_path : string) : list Event :=
  if exists_ h output_path then []
  else [Call (os_makedirs output_path) true;
        Print ("Created output directory: " ++ output_path)].

(** The exception step 1 raises, if any. *)
Definition output_dir_error (h : Host) (output_path : string)
  : option PyException :=
  if exists_ h output_path then None else makedirs h output_path.

Definition dispatch_event (ok : bool) : Event :=
  Call (win32com_Dispatch "PowerPoint.Application") ok.

(** The exception a run of [topng] leaves uncaught, if any: the one of
    [os.makedirs] when the output directory has to be created, else the one
    of [presentation.Close()] when the document was opened. *)
Definition uncaught (h : Host) (pptx output_dir : string) : option PyException :=
  if exists_ h (abspath h pptx) then
    match output_dir_error h (abspath h output_dir) with
    | Some e => Some e
    | None =>
        match Dispatch h, Presentations_Open h (abspath h pptx) with
        | None, inr p => Close p
        | _, _ => None
        end
    end
  else None.

(** The exception a run of [topng] catches, if any, with the handler that
    catches it: [true] for the one around [Dispatch], [false] for the outer
    one around [Open] and the conversion. *)
Definition caught (h : Host) (pptx output_dir : string) (range scale : PyValue)
  : option (bool * PyException) :=
  if exists_ h (abspath h pptx) then
    match output_dir_error h (abspath h output_dir) with
    | Some _ => None
    | None =>
        match Dispatch h with
        | Some e => Some (true, e)
        | None =>
            match Presentations_Open h (abspath h pptx) with
            | inl e => Some (false, e)
            | inr p =>
                match outcome (convert h p pptx (abspath h output_dir)
                                 range scale) with
                | Raise e => Some (false, e)
                | Ok _ => None
                end
            end
        end
    end
  else None.

(** The console line a handler prints for the exception it caught. *)
Definition report (by_dispatch_handler : bool) (e : PyException) : string :=
  if by_dispatch_handler then "Details: " ++ str_exc e
  else "An error occurred during conversion: " ++ str_exc e.

(** The invariant the data model asks of a slide range. *)
Definition range_invariant (start_slide end_slide total_slides : Z) : Prop :=
  1 <= start_slide /\ start_slide <= end_slide /\ end_slide <= total_slides.

(** Spec floats that are zero or positive and below [2 ^ B]. *)
Definition small_nonneg (B : Z) (x : spec_float) : Prop :=
  match x with
  | S754_zero false => True
  | S754_finite false m e => Z.pos (digits2_pos m) + e <= B
  | _ => False
  end.

(** Spec floats that are at least one, plus infinity included. *)
Definition at_least_one (y : spec_float) : Prop :=
  match y with
  | S754_infinity false => True
  | S754_finite false m e => 1 <= Z.pos (digits2_pos m) + e
  | _ => False
  end.

(** ** Further scenarios and notions *)

Module Scenarios.

(** A portrait deck, 540 by 960 points. *)
Definition portrait_deck : Presentation := {|
  Slides_Count := 3;
  SlideWidth := 540;
  SlideHeight := 960;
  Slides := Slides Samples.deck;
  Export := Export Samples.deck;
  Close := None
|}.

(** A deck that reports a page height of zero. *)
Definition flat_deck : Presentation := {|
  Slides_Count := 3;
  SlideWidth := 960;
  SlideHeight := 0;
  Slides := Slides Samples.deck;
  Export := Export Samples.deck;
  Close := None
|}.

(** The office machine where [ctypes.windll] is missing. *)
Definition no_ctypes_pc (p : Presentation) : Host := {|
  abspath := abspath (Samples.office_pc p);
  basename := basename (Samples.office_pc p);
  join := join (Samples.office_pc p);
  exists_ := exists_ (Samples.office_pc p);
  makedirs := makedirs (Samples.office_pc p);
  Dispatch := None;
  Presentations_Open := fun _ => inr p;
  user32 := inl (AttributeError "module 'ctypes' has no attribute 'windll'")
|}.

(** The office machine without PowerPoint. *)
Definition no_powerpoint_pc : Host := {|
  abspath := abspath (Samples.office_pc Samples.deck);
  basename := basename (Samples.office_pc Samples.deck);
  join := join (Samples.office_pc Samples.deck);
  exists_ := exists_ (Samples.office_pc Samples.deck);
  makedirs := makedirs (Samples.office_pc Samples.deck);
  Dispatch := Some (com_error "Invalid class string");
  Presentations_Open := fun _ => inr Samples.deck;
  user32 := user32 (Samples.office_pc Samples.deck)
|}.

(** The office machine with a document PowerPoint cannot read, and the
    output directory already there. *)
Definition corrupt_file_pc : Host := {|
  abspath := abspath (Samples.office_pc Samples.deck);
  basename := basename (Samples.office_pc Samples.deck);
  join := join (Samples.office_pc Samples.deck);
  exists_ := fun path =>
    String.eqb path "C:\work\deck.pptx" || String.eqb path "C:\work\out";
  makedirs := makedirs (Samples.office_pc Samples.deck);
  Dispatch := None;
  Presentations_Open := fun _ =>
    inl (com_error "PowerPoint could not open the file.");
  user32 := user32 (Samples.office_pc Samples.deck)
|}.

End Scenarios.

(** The image paths of a whole document, in slide order: what the loop is
    meant to write. *)
Definition planned_paths (h : Host) (output_path : string) (p : Presentation)
  : list string :=
  map (fun i => join h output_path (image_name i))
    (Py.range_list 1 (Slides_Count p + 1)).

(** The [os.makedirs] calls of a trace. *)
Definition makedirs_calls (t : list Event) : list Event := filter is_makedirs t.

(** Strings, lists and tuples: the values [float.__mul__] hands over to
    sequence repetition. *)
Definition is_sequence (v : PyValue) : bool :=
  match v with
  | PyStr _ | PyList _ | PyTuple _ => true
  | _ => false
  end.

(** Spec floats that are a zero of either sign or positive and below
    [2 ^ B]. *)
Definition nonneg_finite (B : Z) (x : spec_float) : Prop :=
  match x with
  | S754_zero _ => True
  | S754_finite false m e => Z.pos (digits2_pos m) + e <= B
  | _ => False
  end.

(** Spec floats in the interval from zero to one, one excluded. *)
Definition below_one (y : spec_float) : Prop :=
  match y with
  | S754_zero _ => True
  | S754_finite false m e => Z.pos (digits2_pos m) + e <= 0
  | _ => False
  end.

(** An event that, if it is an export, asks for a PNG of [target_w] by
    [target_h] pixels at the image path of its slide in [output_path]. *)
Definition export_as_planned (h : Host) (output_path : string)
    (target_w target_h : Z) (ev : Event) : Prop :=
  match ev with
  | Call (Slide_Export i path fmt w h') _ =>
      path = join h output_path (image_name i)
      /\ fmt = "PNG" /\ w = target_w /\ h' = target_h
  | _ => True
  end.

(** ** The monad *)

Lemma trace_bind {A B} (m : Run A) (k : A -> Run B) :
  trace (bind m k)
  = (trace m ++ match outcome m with
                | Ok a => trace (k a)
                | Raise _ => []
                end)%list.
Proof.
  destruct m as [t [a | e]]; simpl.
  - destruct (k a); reflexivity.
  - now rewrite app_nil_r.
Qed.

Lemma outcome_bind {A B} (m : Run A) (k : A -> Run B) :
  outcome (bind m k)
  = match outcome m with
    | Ok a => outcome (k a)
    | Raise e => Raise e
    end.
Proof.
  destruct m as [t [a | e]]; simpl; [destruct (k a) |]; reflexivity.
Qed.

Lemma trace_lift {A} (r : result A) : trace (lift r) = [].
Proof. reflexivity. Qed.

Lemma outcome_lift {A} (r : result A) : outcome (lift r) = r.
Proof. reflexivity. Qed.

Lemma trace_try_except {A} (m : Run A) (handler : PyException -> Run A) :
  trace (try_except m handler)
  = (trace m ++ match outcome m with
                | Ok _ => []
                | Raise e => trace (handler e)
                end)%list.
Proof.
  destruct m as [t [a | e]]; simpl.
  - now rewrite app_nil_r.
  - destruct (handler e); reflexivity.
Qed.

Lemma outcome_try_except {A} (m : Run A) (handler : PyException -> Run A) :
  outcome (try_except m handler)
  = match outcome m with
    | Ok a => Ok a
    | Raise e => outcome (handler e)
    end.
Proof.
  destruct m as [t [a | e]]; simpl; [| destruct (handler e)]; reflexivity.
Qed.

Lemma trace_try_finally {A} (m : Run A) (fin : Run unit) :
  trace (try_finally m fin) = (trace m ++ trace fin)%list.
Proof. destruct m as [t r], fin as [t' [[] | e]]; reflexivity. Qed.

Lemma outcome_try_finally {A} (m : Run A) (fin : Run unit) :
  outcome (try_finally m fin)
  = match outcome fin with
    | Ok _ => outcome m
    | Raise e => Raise e
    end.
Proof. destruct m as [t r], fin as [t' [[] | e]]; reflexivity. Qed.

Lemma run_eta {A} (m : Run A) : m = (trace m, outcome m).
Proof. now destruct m. Qed.

(** A property of every event is preserved by sequencing and handling. *)
Section ForallTrace.

Variable P : Event -> Prop.

Lemma Forall_bind {A B} (m : Run A) (k : A -> Run B) :
  Forall P (trace m) ->
  (forall a, outcome m = Ok a -> Forall P (trace (k a))) ->
  Forall P (trace (bind m k)).
Proof.
  intros Hm Hk. rewrite trace_bind. apply Forall_app. split; [exact Hm |].
  destruct (outcome m); [now apply Hk | constructor].
Qed.

Lemma Forall_try_except {A} (m : Run A) (handler : PyException -> Run A) :
  Forall P (trace m) -> (forall e, Forall P (trace (handler e))) ->
  Forall P (trace (try_except m handler)).
Proof.
  intros Hm Hh. rewrite trace_try_except. apply Forall_app.
  split; [exact Hm |]. destruct (outcome m); [constructor | apply Hh].
Qed.

Lemma Forall_lift {A} (r : result A) : Forall P (trace (lift r)).
Proof. constructor. Qed.

Lemma Forall_ret {A} (a : A) : Forall P (trace (ret a)).
Proof. constructor. Qed.

Lemma Forall_print (line : string) :
  P (Print line) -> Forall P (trace (print line)).
Proof. intro H. repeat constructor. exact H. Qed.

Lemma Forall_host_call (c : ExternalCall) (err : option PyException) :
  (forall ok, P (Call c ok)) -> Forall P (trace (host_call c err)).
Proof. intro H. destruct err; repeat constructor; apply H. Qed.

End ForallTrace.

(** ** What each phase of [topng] logs *)

Ltac forall_trace :=
  repeat first
    [ apply Forall_lift
    | apply Forall_ret
    | apply Forall_print; exact I
    | apply Forall_host_call; intros ?; exact I
    | apply Forall_bind; [| intros ? ?]
    | apply Forall_try_except; [| intros ?]
    | match goal with
      | |- context [let '(_, _) := ?x in _] => destruct x
      | |- context [if ?b then _ else _] => destruct b
      end ].

Lemma auto_resolution_prints h slide_width slide_height :
  Forall is_print (trace (auto_resolution h slide_width slide_height)).
Proof.
  unfold auto_resolution. destruct (user32 h); forall_trace.
Qed.

Lemma target_resolution_prints h slide_width slide_height scale :
  Forall is_print (trace (target_resolution h slide_width slide_height scale)).
Proof.
  unfold target_resolution, fallback_resolution, manual_scale.
  destruct (negb (Py.truthy scale)).
  - apply Forall_try_except; [apply auto_resolution_prints | intros ?].
    forall_trace.
  - forall_trace.
Qed.

Lemma print_conversion_event ev : is_print ev -> conversion_event ev.
Proof. destruct ev; simpl; tauto. Qed.

Lemma export_loop_events h presentation output_path target_w target_h indices :
  forall count,
    Forall conversion_event
      (trace (export_loop h presentation output_path target_w target_h
                indices count)).
Proof.
  induction indices as [| i rest IH]; intros count; cbn [export_loop].
  - constructor.
  - forall_trace. apply IH.
Qed.

Lemma convert_events h presentation pptx output_path range scale :
  Forall conversion_event
    (trace (convert h presentation pptx output_path range scale)).
Proof.
  unfold convert. forall_trace.
  - eapply Forall_impl; [| apply target_resolution_prints].
    apply print_conversion_event.
  - apply export_loop_events.
Qed.

Lemma conversion_events_quiet t :
  Forall conversion_event t ->
  closes t = 0%nat /\ opened t = false /\ existsb is_makedirs t = false.
Proof.
  unfold closes, opened.
  induction 1 as [| ev t Hev _ IH]; simpl; [auto |].
  destruct IH as (IH1 & IH2 & IH3).
  destruct ev as [line | [] ok]; simpl in *; try contradiction;
    try destruct ok; auto.
Qed.

Lemma closes_app t1 t2 : closes (t1 ++ t2) = (closes t1 + closes t2)%nat.
Proof. unfold closes. now rewrite filter_app, length_app. Qed.

Lemma opened_app t1 t2 : opened (t1 ++ t2) = opened t1 || opened t2.
Proof. apply existsb_app. Qed.

(** The outer [try]: either [Open] raises, which is reported, or the
    presentation is opened, converted and closed. *)
Lemma open_and_convert_shape h pptx pptx_path output_path range scale :
  open_and_convert h pptx pptx_path output_path range scale
  = match Presentations_Open h pptx_path with
    | inl e =>
        ([Call (Open pptx_path false) false;
          Print ("An error occurred during conversion: " ++ str_exc e)],
         Ok tt)
    | inr p =>
        ((Call (Open pptx_path false) true
          :: conversion_log h p pptx output_path range scale
          ++ [close_event p])%list,
         close_outcome p)
    end.
Proof.
  unfold open_and_convert, conversion_log, close_event, close_outcome.
  destruct (Presentations_Open h pptx_path) as [e | p]; [reflexivity |].
  destruct (convert h p pptx output_path range scale) as [t [[] | e]];
    destruct (Close p); cbn; now rewrite <- ?app_assoc.
Qed.

Lemma conversion_log_events h p pptx output_path range scale :
  Forall conversion_event (conversion_log h p pptx output_path range scale).
Proof.
  unfold conversion_log.
  apply Forall_try_except; [apply convert_events | intros e].
  now apply Forall_print.
Qed.

(** The exit paths of [topng]. *)
Lemma topng_shape h pptx output_dir range scale :
  let pptx_path := abspath h pptx in
  let output_path := abspath h output_dir in
  let run := topng h pptx output_dir range scale in
  if exists_ h pptx_path then
    match output_dir_error h output_path with
    | Some e => run = ([Call (os_makedirs output_path) false], Raise e)
    | None =>
        match Dispatch h with
        | Some e =>
            run = ((output_dir_events h output_path
                    ++ [dispatch_event false;
                        Print ("Error: Could not initialize PowerPoint. "
                               ++ "Make sure Microsoft PowerPoint is installed.");
                        Print ("Details: " ++ str_exc e)])%list,
                   Ok tt)
        | None =>
            let inner :=
              open_and_convert h pptx pptx_path output_path range scale in
            run = ((output_dir_events h output_path
                    ++ dispatch_event true :: trace inner)%list,
                   outcome inner)
        end
    end
  else
    run = ([Print ("Error: File '" ++ pptx_path ++ "' not found.")], Ok tt).
Proof.
  unfold topng, output_dir_error, output_dir_events, dispatch_event.
  cbv zeta.
  destruct (exists_ h (abspath h pptx)); [| reflexivity].
  destruct (exists_ h (abspath h output_dir)); cbn [negb].
  - destruct (Dispatch h); [reflexivity |].
    cbn. now destruct (open_and_convert _ _ _ _ _ _).
  - destruct (makedirs h (abspath h output_dir)); [reflexivity |].
    destruct (Dispatch h); [reflexivity |].
    cbn. now destruct (open_and_convert _ _ _ _ _ _).
Qed.

(** ** The document handle *)

Lemma output_dir_events_quiet h output_path :
  closes (output_dir_events h output_path) = 0%nat /\
  opened (output_dir_events h output_path) = false.
Proof. unfold output_dir_events. now destruct (exists_ h output_path). Qed.

(** C2: whenever the [Open] call of a run of [topng] returned, the run calls
    [presentation.Close()] exactly once, as its last event, whatever happened
    in between (an export raising in the middle of the loop included). *)
Theorem topng_closes_opened_document h pptx output_dir range scale :
  opened (trace (topng h pptx output_dir range scale)) = true ->
  closes (trace (topng h pptx output_dir range scale)) = 1%nat /\
  exists t ok,
    trace (topng h pptx output_dir range scale)
    = (t ++ [Call Presentation_Close ok])%list.
Proof.
  pose proof (topng_shape h pptx output_dir range scale) as Hshape.
  cbv zeta in Hshape.
  destruct (output_dir_events_quiet h (abspath h output_dir)) as [Hc Ho].
  destruct (exists_ h (abspath h pptx)).
  2: { rewrite Hshape. discriminate. }
  destruct (output_dir_error h (abspath h output_dir)).
  { rewrite Hshape. discriminate. }
  destruct (Dispatch h).
  { rewrite Hshape. cbn [trace fst]. rewrite opened_app, Ho. discriminate. }
  rewrite Hshape, open_and_convert_shape. clear Hshape.
  destruct (Presentations_Open h (abspath h pptx)) as [e | p]; cbn [trace fst].
  { rewrite opened_app, Ho. discriminate. }
  intros _.
  destruct (conversion_events_quiet _
              (conversion_log_events h p pptx (abspath h output_dir) range scale))
    as (Hlog & _ & _).
  split.
  - change (dispatch_event true :: Call (Open (abspath h pptx) false) true
            :: conversion_log h p pptx (abspath h output_dir) range scale
            ++ [close_event p])%list
      with ([dispatch_event true; Call (Open (abspath h pptx) false) true]
            ++ conversion_log h p pptx (abspath h output_dir) range scale
            ++ [close_event p])%list.
    rewrite !closes_app, Hc, Hlog. reflexivity.
  - exists (output_dir_events h (abspath h output_dir)
            ++ dispatch_event true :: Call (Open (abspath h pptx) false) true
            :: conversion_log h p pptx (abspath h output_dir) range scale)%list.
    eexists. unfold close_event.
    rewrite <- app_assoc. reflexivity.
Qed.

(** An export that raises at the second of three slides: the first image is
    written, the error is reported and the document is closed. *)
Example export_raises_mid_loop :
  topng (Samples.office_pc Samples.deck_disk_full) "deck.pptx" "out"
    PyBuiltinRange (PyInt 1)
  = ([Call (os_makedirs "C:\work\out") true;
      Print "Created output directory: C:\work\out";
      Call (win32com_Dispatch "PowerPoint.Application") true;
      Call (Open "C:\work\deck.pptx" false) true;
      Print "Mode: Manual Scale (1x)";
      Print "Processing 'deck.pptx'...";
      Print "Target Size: 960x540 px";
      Print "Converting slides 1 to 3...";
      Call (Slides_Item 1) true;
      Call (Slide_Export 1 "C:\work\out\Slide_1.png" "PNG" 960 540) true;
      Print "Saved: Slide_1.png";
      Call (Slides_Item 2) true;
      Call (Slide_Export 2 "C:\work\out\Slide_2.png" "PNG" 960 540) false;
      Print "An error occurred during conversion: Slide.Export : disk full";
      Call Presentation_Close true],
     Ok tt).
Proof. vm_compute. reflexivity. Qed.

Lemma topng_closes_opened_document_witness :
  opened (trace (topng (Samples.office_pc Samples.deck_disk_full)
                   "deck.pptx" "out" PyBuiltinRange (PyInt 1))) = true /\
  (closes (trace (topng (Samples.office_pc Samples.deck_disk_full)
                    "deck.pptx" "out" PyBuiltinRange (PyInt 1))) = 1%nat /\
   exists t ok,
     trace (topng (Samples.office_pc Samples.deck_disk_full)
              "deck.pptx" "out" PyBuiltinRange (PyInt 1))
     = (t ++ [Call Presentation_Close ok])%list).
Proof.
  split; [vm_compute; reflexivity |].
  apply (topng_closes_opened_document
           (Samples.office_pc Samples.deck_disk_full) "deck.pptx" "out"
           PyBuiltinRange (PyInt 1)).
  vm_compute; reflexivity.
Defined.

(** A run that never opened the document never closes it. *)
Lemma topng_unopened_not_closed h pptx output_dir range scale :
  opened (trace (topng h pptx output_dir range scale)) = false ->
  closes (trace (topng h pptx output_dir range scale)) = 0%nat.
Proof.
  pose proof (topng_shape h pptx output_dir range scale) as Hshape.
  cbv zeta in Hshape.
  destruct (output_dir_events_quiet h (abspath h output_dir)) as [Hc Ho].
  destruct (exists_ h (abspath h pptx)).
  2: { rewrite Hshape. reflexivity. }
  destruct (output_dir_error h (abspath h output_dir)).
  { rewrite Hshape. reflexivity. }
  destruct (Dispatch h).
  { rewrite Hshape. cbn [trace fst]. now rewrite closes_app, Hc. }
  rewrite Hshape, open_and_convert_shape. clear Hshape.
  destruct (Presentations_Open h (abspath h pptx)) as [e | p]; cbn [trace fst].
  - now rewrite closes_app, Hc.
  - rewrite opened_app, Ho. cbn. discriminate.
Qed.

(** ** A missing document *)

(** C4: when [os.path.exists] is false for the absolute document path,
    [topng] prints the not-found line and returns; that line is the whole
    run, so no directory is created and PowerPoint is never called. *)
Theorem topng_missing_document h pptx output_dir range scale :
  exists_ h (abspath h pptx) = false ->
  topng h pptx output_dir range scale
  = ([Print ("Error: File '" ++ abspath h pptx ++ "' not found.")], Ok tt)
  /\ existsb is_makedirs (trace (topng h pptx output_dir range scale)) = false
  /\ existsb is_powerpoint_call (trace (topng h pptx output_dir range scale))
     = false.
Proof.
  intros Hmissing.
  assert (Hrun : topng h pptx output_dir range scale
                 = ([Print ("Error: File '" ++ abspath h pptx ++ "' not found.")],
                    Ok tt)).
  { unfold topng. now rewrite Hmissing. }
  rewrite Hrun. repeat split.
Qed.

Lemma topng_missing_document_witness :
  exists_ (Samples.office_pc Samples.deck)
    (abspath (Samples.office_pc Samples.deck) "missing.pptx") = false /\
  (topng (Samples.office_pc Samples.deck) "missing.pptx" "out"
     (PyList [PyInt 1; PyInt 2]) (PyInt 2)
   = ([Print "Error: File 'C:\work\missing.pptx' not found."], Ok tt)
   /\ existsb is_makedirs
        (trace (topng (Samples.office_pc Samples.deck) "missing.pptx" "out"
                  (PyList [PyInt 1; PyInt 2]) (PyInt 2))) = false
   /\ existsb is_powerpoint_call
        (trace (topng (Samples.office_pc Samples.deck) "missing.pptx" "out"
                  (PyList [PyInt 1; PyInt 2]) (PyInt 2))) = false).
Proof.
  split; [reflexivity |].
  apply (topng_missing_document (Samples.office_pc Samples.deck)
           "missing.pptx" "out" (PyList [PyInt 1; PyInt 2]) (PyInt 2)).
  reflexivity.
Defined.

(** ** Which failures are caught *)

(** C3, refuted as stated: [os.makedirs] runs outside every [try], so on a
    read-only working directory the [OSError] reaches the caller. *)
Lemma topng_makedirs_error_propagates :
  topng Samples.locked_pc "deck.pptx" "out" PyNone PyNone
  = ([Call (os_makedirs "C:\work\out") false],
     Raise (OSError "[WinError 5] Access is denied")).
Proof. reflexivity. Qed.

(** An exception of [presentation.Close()], raised in the [finally] clause,
    reaches the caller as well. *)
Lemma topng_close_error_propagates :
  outcome (topng (Samples.office_pc Samples.deck_stuck) "deck.pptx" "out"
             PyNone PyNone)
  = Raise (com_error "Presentation.Close : failed").
Proof. vm_compute. reflexivity. Qed.

(** What is caught is also reported: a conversion that raises [e] logs the
    line built from [str(e)] as the last event before the document is
    closed. *)
Lemma conversion_error_reported h p pptx output_path range scale e :
  outcome (convert h p pptx output_path range scale) = Raise e ->
  conversion_log h p pptx output_path range scale
  = (trace (convert h p pptx output_path range scale)
     ++ [Print ("An error occurred during conversion: " ++ str_exc e)])%list.
Proof.
  intros He. unfold conversion_log. rewrite trace_try_except, He. reflexivity.
Qed.

(** Among the calls that can fail in this model (console output and path
    normalisation are taken to succeed), only [os.makedirs] and
    [presentation.Close()] decide the outcome of [topng]; an exception one of
    the two handlers catches is printed on the console. *)
Lemma topng_outcome_and_reports h pptx output_dir range scale :
  outcome (topng h pptx output_dir range scale)
  = match uncaught h pptx output_dir with
    | Some e => Raise e
    | None => Ok tt
    end
  /\ forall handler e,
       caught h pptx output_dir range scale = Some (handler, e) ->
       In (Print (report handler e))
          (trace (topng h pptx output_dir range scale)).
Proof.
  pose proof (topng_shape h pptx output_dir range scale) as Hshape.
  cbv zeta in Hshape. unfold uncaught, caught.
  destruct (exists_ h (abspath h pptx));
    [| rewrite Hshape; split; [reflexivity | discriminate]].
  destruct (output_dir_error h (abspath h output_dir));
    [rewrite Hshape; split; [reflexivity | discriminate] |].
  destruct (Dispatch h) as [e0 |].
  { rewrite Hshape. split; [reflexivity |].
    intros handler e [= <- <-]. cbn [trace fst report].
    apply in_or_app. right. cbn. auto. }
  rewrite Hshape, open_and_convert_shape. clear Hshape.
  destruct (Presentations_Open h (abspath h pptx)) as [e0 | p].
  { split; [reflexivity |].
    intros handler e [= <- <-]. cbn [trace fst report].
    apply in_or_app. right. cbn. auto. }
  split; [unfold close_outcome; now destruct (Close p) |].
  intros handler e Hcaught.
  destruct (outcome (convert h p pptx (abspath h output_dir) range scale))
    as [[] | e0] eqn:Hconv; [discriminate |].
  injection Hcaught as <- <-. cbn [trace fst report].
  rewrite (conversion_error_reported _ _ _ _ _ _ _ Hconv).
  apply in_or_app. right. right. right.
  apply in_or_app. left. apply in_or_app. right. now left.
Qed.

(** ** The export loop *)

Lemma exported_app t1 t2 : exported (t1 ++ t2) = (exported t1 ++ exported t2)%list.
Proof.
  induction t1 as [| ev t1 IH]; [reflexivity |].
  destruct ev as [line | [] []]; cbn; now rewrite ?IH.
Qed.

Lemma exported_prints t : Forall is_print t -> exported t = [].
Proof.
  induction 1 as [| ev t Hev _ IH]; [reflexivity |].
  destruct ev; [exact IH | contradiction].
Qed.

Lemma call2_not_callable range start stop :
  range <> PyBuiltinRange ->
  Py.call2 range start stop
  = Raise (TypeError ("'" ++ Py.type_name range ++ "' object is not callable")).
Proof. destruct range; intros Hr; try reflexivity. now contradiction Hr. Qed.

(** With a [range] argument that is not callable, the conversion raises at
    the head of the [for] loop at the latest: it logs console lines only. *)
Lemma convert_not_callable h p pptx output_path range scale :
  range <> PyBuiltinRange ->
  Forall is_print (trace (convert h p pptx output_path range scale)) /\
  exists e, outcome (convert h p pptx output_path range scale) = Raise e.
Proof.
  intros Hr. unfold convert. split.
  - forall_trace; try apply target_resolution_prints.
    all: match goal with
         | H : outcome (lift (Py.call2 _ _ _)) = Ok _ |- _ =>
             rewrite outcome_lift, call2_not_callable in H by exact Hr;
             discriminate H
         end.
  - repeat
      (rewrite outcome_bind;
       match goal with
       | |- context [match outcome ?m with _ => _ end] =>
           destruct (outcome m) as [? | e] eqn:?; [| now exists e]
       end;
       repeat match goal with
              | |- context [let '(_, _) := ?x in _] => destruct x
              end).
    match goal with
    | H : outcome (lift (Py.call2 _ _ _)) = Ok _ |- _ =>
        rewrite outcome_lift, call2_not_callable in H by exact Hr;
        discriminate H
    end.
Qed.

(** C1, on the code: [range], the parameter, shadows the builtin the [for]
    loop means to call.  With no range ([None]) or a list, the call
    [range(start_slide, end_slide + 1)] raises [TypeError], so [topng]
    writes no image at all, whatever the host and the other arguments. *)
Theorem topng_exports_nothing h pptx output_dir range scale :
  range = PyNone \/ (exists l, range = PyList l) ->
  exported (trace (topng h pptx output_dir range scale)) = [].
Proof.
  intros Hrange.
  assert (Hr : range <> PyBuiltinRange).
  { destruct Hrange as [-> | [l ->]]; discriminate. }
  pose proof (topng_shape h pptx output_dir range scale) as Hshape.
  cbv zeta in Hshape.
  assert (Hdir : exported (output_dir_events h (abspath h output_dir)) = []).
  { unfold output_dir_events. now destruct (exists_ h (abspath h output_dir)). }
  destruct (exists_ h (abspath h pptx)); [| now rewrite Hshape].
  destruct (output_dir_error h (abspath h output_dir)); [now rewrite Hshape |].
  destruct (Dispatch h).
  { rewrite Hshape. cbn [trace fst]. now rewrite exported_app, Hdir. }
  rewrite Hshape, open_and_convert_shape. clear Hshape.
  destruct (Presentations_Open h (abspath h pptx)) as [e | p]; cbn [trace fst].
  { now rewrite exported_app, Hdir. }
  rewrite exported_app, Hdir. cbn. rewrite exported_app.
  rewrite exported_prints; [reflexivity |].
  unfold conversion_log. apply Forall_try_except.
  - now apply convert_not_callable.
  - intros e. now apply Forall_print.
Qed.

Lemma topng_exports_nothing_witness :
  (PyNone = PyNone \/ (exists l, PyNone = PyList l)) /\
  exported (trace (topng (Samples.office_pc Samples.deck) "deck.pptx" "out"
                     PyNone PyNone)) = [].
Proof.
  split; [left; reflexivity |].
  apply (topng_exports_nothing (Samples.office_pc Samples.deck)
           "deck.pptx" "out" PyNone PyNone).
  left; reflexivity.
Defined.

(** The run of the documented call [topng("deck.pptx", "out")] on a
    three-slide deck: the range is announced, then the loop fails. *)
Example topng_default_range_run :
  topng (Samples.office_pc Samples.deck) "deck.pptx" "out" PyNone PyNone
  = ([Call (os_makedirs "C:\work\out") true;
      Print "Created output directory: C:\work\out";
      Call (win32com_Dispatch "PowerPoint.Application") true;
      Call (Open "C:\work\deck.pptx" false) true;
      Print "Mode: Auto-Resolution (Matched to Screen Long Edge: 1920 px)";
      Print "Processing 'deck.pptx'...";
      Print "Target Size: 1920x1080 px";
      Print "Converting slides 1 to 3...";
      Print "An error occurred during conversion: 'NoneType' object is not callable";
      Call Presentation_Close true],
     Ok tt).
Proof. vm_compute. reflexivity. Qed.

(** The docstring's own example, [range=[1, 5]], on the same deck. *)
Example topng_list_range_run :
  trace (topng (Samples.office_pc Samples.deck) "deck.pptx" "out"
           (PyList [PyInt 1; PyInt 5]) (PyInt 2))
  = [Call (os_makedirs "C:\work\out") true;
     Print "Created output directory: C:\work\out";
     Call (win32com_Dispatch "PowerPoint.Application") true;
     Call (Open "C:\work\deck.pptx" false) true;
     Print "Mode: Manual Scale (2x)";
     Print "Processing 'deck.pptx'...";
     Print "Target Size: 1920x1080 px";
     Print "Converting slides 1 to 3...";
     Print "An error occurred during conversion: 'list' object is not callable";
     Call Presentation_Close true].
Proof. vm_compute. reflexivity. Qed.

(** Handing the builtin itself in as [range] undoes the shadowing: the loop
    then writes one image per slide of the document. *)
Example topng_builtin_range_run :
  exported (trace (topng (Samples.office_pc Samples.deck) "deck.pptx" "out"
                     PyBuiltinRange PyNone))
  = ["C:\work\out\Slide_1.png"; "C:\work\out\Slide_2.png";
     "C:\work\out\Slide_3.png"].
Proof. vm_compute. reflexivity. Qed.

(** ** The slide range *)

(** A list of two ints is clamped one bound at a time. *)
Lemma slide_range_ints a b total_slides :
  slide_range (PyList [PyInt a; PyInt b]) total_slides
  = Ok (PyInt (Z.max 1 a), PyInt (Z.min total_slides b)).
Proof.
  cbn. destruct (Z.ltb_spec 1 a), (Z.ltb_spec b total_slides);
    repeat f_equal; lia.
Qed.

(** C5, refuted as stated: the range [[5, 2]] on a ten-slide document
    yields start 5 and end 2. *)
Lemma slide_range_inverted :
  slide_range (PyList [PyInt 5; PyInt 2]) 10 = Ok (PyInt 5, PyInt 2)
  /\ ~ range_invariant 5 2 10.
Proof. split; [reflexivity | unfold range_invariant; lia]. Qed.

(** C5, amended: for a list of two ints [[a, b]] the start is [max(1, a)]
    and the end is [min(total_slides, b)]; so [1 <= start] and
    [end <= total_slides] always hold, and [start <= end] holds exactly when
    the requested interval meets the document. *)
Theorem slide_range_clamped a b total_slides :
  slide_range (PyList [PyInt a; PyInt b]) total_slides
  = Ok (PyInt (Z.max 1 a), PyInt (Z.min total_slides b))
  /\ 1 <= Z.max 1 a
  /\ Z.min total_slides b <= total_slides
  /\ (range_invariant (Z.max 1 a) (Z.min total_slides b) total_slides
      <-> a <= b /\ a <= total_slides /\ 1 <= b /\ 1 <= total_slides).
Proof.
  split; [apply slide_range_ints |].
  unfold range_invariant. lia.
Qed.

(** C6: [range = [0, 999]] on a ten-slide document is clamped to 1 and 10,
    and that is the range [topng] announces. *)
Theorem slide_range_0_999_of_10 :
  slide_range (PyList [PyInt 0; PyInt 999]) 10 = Ok (PyInt 1, PyInt 10)
  /\ In (Print "Converting slides 1 to 10...")
        (trace (topng (Samples.office_pc Samples.deck10) "deck.pptx" "out"
                  (PyList [PyInt 0; PyInt 999]) PyNone)).
Proof. split; [reflexivity | vm_compute; tauto]. Qed.

(** C10: a [range] argument that is not a list of exactly two elements is
    skipped by the range computation, which raises nothing and yields the
    whole document. *)
Theorem slide_range_ignores_other_values range total_slides :
  (forall r0 r1, range <> PyList [r0; r1]) ->
  slide_range range total_slides = Ok (PyInt 1, PyInt total_slides).
Proof.
  intros Hrange. unfold slide_range.
  destruct range as [| b | z | f | s | l | l |]; cbn [Py.is_list];
    try (destruct (Py.truthy _); reflexivity).
  destruct l as [| r0 [| r1 [| r2 l]]]; try reflexivity.
  - now contradiction (Hrange r0 r1).
  - cbn [Py.truthy Py.len rbind List.length].
    destruct (Z.eqb_spec (Z.of_nat (S (S (S (List.length l))))) 2);
      [lia | reflexivity].
Qed.

Lemma slide_range_ignores_other_values_witness :
  (forall r0 r1, PyTuple [PyInt 2; PyInt 3] <> PyList [r0; r1]) /\
  slide_range (PyTuple [PyInt 2; PyInt 3]) 10 = Ok (PyInt 1, PyInt 10).
Proof.
  split; [intros r0 r1; discriminate |].
  apply (slide_range_ignores_other_values (PyTuple [PyInt 2; PyInt 3]) 10).
  intros r0 r1; discriminate.
Defined.

(** A list of three is ignored in the same way. *)
Example slide_range_three_elements :
  slide_range (PyList [PyInt 2; PyInt 3; PyInt 4]) 10 = Ok (PyInt 1, PyInt 10).
Proof. reflexivity. Qed.

(** ** The target resolution *)

(** Only the truth value of a false [scale] is looked at. *)
Lemma target_resolution_falsy h slide_width slide_height scale :
  Py.truthy scale = false ->
  target_resolution h slide_width slide_height scale
  = try_except (auto_resolution h slide_width slide_height)
      (fun _ => fallback_resolution slide_width slide_height).
Proof. intros Hscale. unfold target_resolution. now rewrite Hscale. Qed.

(** C9: with [scale = 0], or any other false value, the manual branch is
    skipped: step 5 runs the screen-based computation (with its 2x
    fallback), and the whole call is the call with [scale] omitted. *)
Theorem topng_falsy_scale h pptx output_dir range scale :
  Py.truthy scale = false ->
  topng h pptx output_dir range scale = topng h pptx output_dir range PyNone
  /\ forall slide_width slide_height,
       target_resolution h slide_width slide_height scale
       = try_except (auto_resolution h slide_width slide_height)
           (fun _ => fallback_resolution slide_width slide_height).
Proof.
  intros Hscale. split.
  - unfold topng, open_and_convert, convert, target_resolution.
    rewrite Hscale. reflexivity.
  - intros. now apply target_resolution_falsy.
Qed.

Lemma topng_falsy_scale_witness :
  Py.truthy (PyInt 0) = false /\
  (topng (Samples.office_pc Samples.deck) "deck.pptx" "out" PyNone (PyInt 0)
   = topng (Samples.office_pc Samples.deck) "deck.pptx" "out" PyNone PyNone
   /\ forall slide_width slide_height,
        target_resolution (Samples.office_pc Samples.deck)
          slide_width slide_height (PyInt 0)
        = try_except
            (auto_resolution (Samples.office_pc Samples.deck)
               slide_width slide_height)
            (fun _ => fallback_resolution slide_width slide_height)).
Proof.
  split; [reflexivity |].
  apply (topng_falsy_scale (Samples.office_pc Samples.deck)
           "deck.pptx" "out" PyNone (PyInt 0)).
  reflexivity.
Defined.

(** The false values of the model. *)
Example falsy_scales :
  map Py.truthy [PyNone; PyBool false; PyInt 0; PyFloat 0; PyFloat (-0);
                 PyStr ""; PyList []; PyTuple []]
  = [false; false; false; false; false; false; false; false].
Proof. vm_compute. reflexivity. Qed.

(** With [scale = 0] the size comes from the screen, not a zero size. *)
Example topng_scale_zero_target :
  outcome (target_resolution (Samples.office_pc Samples.deck) 960 540 (PyInt 0))
  = Ok (1920, 1080).
Proof. vm_compute. reflexivity. Qed.

(** ** Binary64 arithmetic

    Facts about [spec_float] rounding that the screen-based resolution
    needs: the quotient of a screen dimension by an aspect ratio of at
    least one is a finite float that is not negative. *)

(** *** Counting digits *)

Lemma digits2_pos_size p : digits2_pos p = Pos.size p.
Proof. induction p; simpl; congruence. Qed.

Lemma Zdigits2_log2 m : 0 < m -> Zdigits2 m = Z.log2 m + 1.
Proof.
  destruct m as [| p | p]; try lia. intros _.
  unfold Zdigits2. rewrite digits2_pos_size.
  destruct p; simpl; lia.
Qed.

Lemma Zdigits2_nonneg m : 0 <= Zdigits2 m.
Proof. destruct m; simpl; lia. Qed.

(** [m] fits in [d] bits exactly when it has at most [d] digits. *)
Lemma Zdigits2_le m d : 0 <= m -> 0 <= d -> (Zdigits2 m <= d <-> m < 2 ^ d).
Proof.
  intros Hm Hd. destruct (Z.eq_dec m 0) as [-> | Hne].
  - simpl. split; intros _; [apply Z.pow_pos_nonneg |]; lia.
  - rewrite Zdigits2_log2 by lia.
    rewrite (Z.log2_lt_pow2 m d) by lia. lia.
Qed.

Lemma Zdigits2_lower m : 0 < m -> 2 ^ (Zdigits2 m - 1) <= m.
Proof.
  intros Hm. rewrite Zdigits2_log2 by lia.
  replace (Z.log2 m + 1 - 1) with (Z.log2 m) by lia.
  now apply Z.log2_spec.
Qed.

Lemma Zdigits2_upper m : 0 <= m -> m < 2 ^ Zdigits2 m.
Proof.
  intros Hm. apply Zdigits2_le; try lia. apply Zdigits2_nonneg.
Qed.

Lemma Zdigits2_succ m : 0 <= m -> Zdigits2 (m + 1) <= Zdigits2 m + 1.
Proof.
  intros Hm. pose proof (Zdigits2_nonneg m).
  apply Zdigits2_le; try lia.
  pose proof (Zdigits2_upper m Hm).
  rewrite Z.pow_add_r by lia. lia.
Qed.

Lemma Zdigits2_div_pow2 m n :
  0 <= m -> 0 < n -> Zdigits2 (m / 2 ^ n) <= Z.max (Zdigits2 m - n) 0.
Proof.
  intros Hm Hn.
  assert (Hp : 0 < 2 ^ n) by (apply Z.pow_pos_nonneg; lia).
  assert (Hq : 0 <= m / 2 ^ n) by (apply Z.div_pos; lia).
  apply Zdigits2_le; try lia.
  pose proof (Zdigits2_upper m Hm) as Hup.
  pose proof (Zdigits2_nonneg m) as Hd.
  destruct (Z.le_gt_cases n (Zdigits2 m)) as [Hle | Hgt].
  - rewrite Z.max_l by lia.
    apply Z.div_lt_upper_bound; [lia |].
    rewrite <- Z.pow_add_r by lia.
    now replace (n + (Zdigits2 m - n)) with (Zdigits2 m) by lia.
  - rewrite Z.max_r by lia. simpl.
    apply Z.div_lt_upper_bound; [lia |].
    assert (2 ^ Zdigits2 m <= 2 ^ n) by (apply Z.pow_le_mono_r; lia). lia.
Qed.

(** *** Shifting right *)

Lemma shr_1_m r : 0 <= shr_m r -> shr_m (shr_1 r) = shr_m r / 2.
Proof.
  destruct r as [m b s]. cbn [shr_m]. intros Hm.
  rewrite <- Z.div2_div.
  destruct m as [| [p | p |] | p]; try reflexivity; lia.
Qed.

Lemma iter_pos_shr_1_m p :
  forall r, 0 <= shr_m r ->
    shr_m (iter_pos shr_1 p r) = shr_m r / 2 ^ Z.pos p.
Proof.
  assert (Hpow : forall q, 0 < 2 ^ Z.pos q) by (intros; now apply Z.pow_pos_nonneg).
  assert (Hdiv : forall a q, 0 <= a -> 0 <= a / 2 ^ Z.pos q)
    by (intros; apply Z.div_pos; auto).
  induction p as [p IH | p IH |]; intros r Hr; cbn [iter_pos].
  - assert (H2 : 0 <= shr_m r / 2) by (apply Z.div_pos; lia).
    rewrite IH, IH, shr_1_m by (rewrite ?IH, ?shr_1_m by (rewrite ?shr_1_m; auto); auto).
    rewrite !Z.div_div by (pose proof (Hpow p); lia).
    f_equal.
    replace (Z.pos p~1) with (1 + Z.pos p + Z.pos p) by lia.
    rewrite !Z.pow_add_r by lia. change (2 ^ 1) with 2. ring.
  - rewrite IH, IH by (rewrite ?IH by auto; auto).
    rewrite !Z.div_div by (pose proof (Hpow p); lia).
    f_equal.
    replace (Z.pos p~0) with (Z.pos p + Z.pos p) by lia.
    now rewrite !Z.pow_add_r by lia.
  - rewrite shr_1_m by auto. reflexivity.
Qed.

Lemma shr_record_of_loc_m m l : shr_m (shr_record_of_loc m l) = m.
Proof. destruct l as [| []]; reflexivity. Qed.

(** [shr_fexp] either leaves the mantissa alone or divides it by the power
    of two that brings the exponent to [fexp]. *)
Lemma shr_fexp_spec m e l :
  0 <= m ->
  let n := fexp prec emax (Zdigits2 m + e) - e in
  (n <= 0 /\ shr_m (fst (shr_fexp prec emax m e l)) = m
   /\ snd (shr_fexp prec emax m e l) = e)
  \/ (0 < n /\ shr_m (fst (shr_fexp prec emax m e l)) = m / 2 ^ n
      /\ snd (shr_fexp prec emax m e l) = e + n).
Proof.
  intros Hm n. unfold shr_fexp. fold n. unfold shr.
  destruct n as [| p | p] eqn:Hn; cbn [fst snd].
  - left. rewrite shr_record_of_loc_m. lia.
  - right. rewrite iter_pos_shr_1_m by now rewrite shr_record_of_loc_m.
    rewrite shr_record_of_loc_m. lia.
  - left. rewrite shr_record_of_loc_m. lia.
Qed.

Lemma fexp_eq x : fexp prec emax x = Z.max (x - 53) (-1074).
Proof. reflexivity. Qed.

Lemma shr_fexp_bound m e l B :
  0 <= m -> e <= 971 -> Zdigits2 m + e <= B -> -1074 <= B -> B <= 1024 ->
  0 <= shr_m (fst (shr_fexp prec emax m e l))
  /\ snd (shr_fexp prec emax m e l) <= 971
  /\ Zdigits2 (shr_m (fst (shr_fexp prec emax m e l)))
     + snd (shr_fexp prec emax m e l) <= B.
Proof.
  intros Hm He HB Hmin Hmax.
  destruct (shr_fexp_spec m e l Hm) as [(Hn & -> & ->) | (Hn & -> & ->)];
    [lia |].
  rewrite fexp_eq in *.
  set (n := Z.max (Zdigits2 m + e - 53) (-1074) - e) in *.
  pose proof (Zdigits2_div_pow2 m n Hm Hn).
  assert (0 <= m / 2 ^ n) by (apply Z.div_pos; [lia | apply Z.pow_pos_nonneg; lia]).
  lia.
Qed.

Lemma round_nearest_even_bound m l :
  0 <= m ->
  0 <= round_nearest_even m l
  /\ Zdigits2 (round_nearest_even m l) <= Zdigits2 m + 1.
Proof.
  intros Hm. pose proof (Zdigits2_succ m Hm).
  destruct l as [| []]; cbn [round_nearest_even];
    try destruct (Z.even m); lia.
Qed.

(** Rounding a mantissa that is not negative and stays below [2 ^ B], for a
    [B] within the exponent range, yields a zero or a finite number: neither
    an infinity nor NaN. *)
Lemma binary_round_aux_bound sx mx ex lx B :
  0 <= mx -> ex <= 971 -> Zdigits2 mx + ex <= B -> -1074 <= B -> B <= 1023 ->
  binary_round_aux prec emax sx mx ex lx = S754_zero sx
  \/ exists m e,
       binary_round_aux prec emax sx mx ex lx = S754_finite sx m e
       /\ Z.pos (digits2_pos m) + e <= B + 1.
Proof.
  intros Hm He HB Hmin Hmax. unfold binary_round_aux.
  destruct (shr_fexp_bound mx ex lx B) as (H1 & H2 & H3); try lia.
  destruct (shr_fexp prec emax mx ex lx) as [mrs' e']. cbn [fst snd] in *.
  destruct (round_nearest_even_bound (shr_m mrs') (loc_of_shr_record mrs') H1)
    as [H4 H5].
  set (m' := round_nearest_even (shr_m mrs') (loc_of_shr_record mrs')) in *.
  destruct (shr_fexp_bound m' e' loc_Exact (B + 1)) as (H6 & H7 & H8); try lia.
  destruct (shr_fexp prec emax m' e' loc_Exact) as [mrs'' e'']. cbn [fst snd] in *.
  destruct (shr_m mrs'') as [| m | m]; [now left | | lia].
  right. exists m, e''. split; [| exact H8].
  destruct (Z.leb_spec e'' (emax - prec)) as [_ | Hgt]; [reflexivity |].
  change (emax - prec) with 971 in Hgt. lia.
Qed.

(** *** Division *)

Lemma SFdiv_core_binary_bound m1 e1 m2 e2 :
  let delta := Z.pos (digits2_pos m1) + e1 - (Z.pos (digits2_pos m2) + e2) in
  delta <= 1022 ->
  let '(q, e, _) := SFdiv_core_binary prec emax (Z.pos m1) e1 (Z.pos m2) e2 in
  0 <= q /\ e <= 971 /\ Zdigits2 q + e <= Z.max (delta + 1) (-1074).
Proof.
  intros delta Hdelta. unfold SFdiv_core_binary.
  change (Zdigits2 (Z.pos m1)) with (Z.pos (digits2_pos m1)).
  change (Zdigits2 (Z.pos m2)) with (Z.pos (digits2_pos m2)).
  replace (Z.pos (digits2_pos m1) + e1 - (Z.pos (digits2_pos m2) + e2))
    with delta by reflexivity.
  rewrite fexp_eq.
  set (d1 := Z.pos (digits2_pos m1)) in *.
  set (d2 := Z.pos (digits2_pos m2)) in *.
  set (e := Z.min (Z.max (delta - 53) (-1074)) (e1 - e2)).
  set (s := e1 - e2 - e).
  assert (Hs : 0 <= s) by lia.
  set (m' := match s with
             | 0 => Z.pos m1
             | Z.pos _ => Z.shiftl (Z.pos m1) s
             | Z.neg _ => 0
             end).
  assert (Hm' : m' = Z.pos m1 * 2 ^ s).
  { unfold m'. destruct s as [| p | p] eqn:Hp; [lia | | lia].
    now rewrite Z.shiftl_mul_pow2. }
  clearbody m'.
  pose proof (Zdigits2_upper (Z.pos m1) ltac:(lia)) as Hup1.
  pose proof (Zdigits2_lower (Z.pos m2) ltac:(lia)) as Hlo2.
  change (Zdigits2 (Z.pos m1)) with d1 in Hup1.
  change (Zdigits2 (Z.pos m2)) with d2 in Hlo2.
  assert (Hps : 0 < 2 ^ s) by (apply Z.pow_pos_nonneg; lia).
  assert (Hm'up : m' < 2 ^ (d1 + s)).
  { rewrite Hm', Z.pow_add_r by lia. nia. }
  assert (Hm'pos : 0 <= m') by nia.
  assert (Hq : Z.div_eucl m' (Z.pos m2)
               = (m' / Z.pos m2, m' mod Z.pos m2)).
  { unfold Z.div, Z.modulo. now destruct (Z.div_eucl m' (Z.pos m2)). }
  rewrite Hq.
  assert (Hqpos : 0 <= m' / Z.pos m2) by (apply Z.div_pos; lia).
  split; [exact Hqpos |]. split; [lia |].
  assert (Hdq : Zdigits2 (m' / Z.pos m2) <= Z.max (d1 + s - d2 + 1) 0).
  { apply Zdigits2_le; try lia.
    apply Z.div_lt_upper_bound; [lia |].
    destruct (Z.le_gt_cases 0 (d1 + s - d2 + 1)) as [Hge | Hlt].
    - rewrite Z.max_l by lia.
      assert (2 ^ (d1 + s) = 2 ^ (d2 - 1) * 2 ^ (d1 + s - d2 + 1)).
      { rewrite <- Z.pow_add_r by lia. f_equal. lia. }
      assert (0 < 2 ^ (d1 + s - d2 + 1)) by (apply Z.pow_pos_nonneg; lia).
      nia.
    - rewrite Z.max_r by lia. change (2 ^ 0) with 1.
      assert (2 ^ (d1 + s) <= 2 ^ (d2 - 1)) by (apply Z.pow_le_mono_r; lia).
      lia. }
  unfold delta, s in *. lia.
Qed.

(** *** Floats of screen dimensions and aspect ratios *)

Lemma binary_round_aux_small mx ex lx B :
  0 <= mx -> ex <= 971 -> Zdigits2 mx + ex <= B -> -1074 <= B -> B <= 1023 ->
  small_nonneg (B + 1) (binary_round_aux prec emax false mx ex lx).
Proof.
  intros Hm He HB Hmin Hmax.
  destruct (binary_round_aux_bound false mx ex lx B Hm He HB Hmin Hmax)
    as [-> | (m & e & -> & Hb)]; [exact I | exact Hb].
Qed.

Lemma SFdiv_small B x y :
  small_nonneg B x -> B <= 1022 -> at_least_one y ->
  small_nonneg (Z.max B (-1074) + 1) (SFdiv prec emax x y).
Proof.
  intros Hx HB Hy.
  destruct x as [[] | | | [] mx ex]; try contradiction;
    destruct y as [| [] | | [] my ey]; try contradiction; try exact I.
  cbn [small_nonneg at_least_one] in Hx, Hy. cbn [SFdiv xorb].
  pose proof (SFdiv_core_binary_bound mx ex my ey) as Hcore.
  cbv zeta in Hcore.
  destruct (SFdiv_core_binary prec emax (Z.pos mx) ex (Z.pos my) ey)
    as [[q e] l].
  destruct Hcore as (Hq & He & Hd); [lia |].
  apply binary_round_aux_small; lia.
Qed.

Lemma Prim2SF_one : Prim2SF 1 = S754_finite false 4503599627370496 (-52).
Proof. reflexivity. Qed.

Lemma Prim2SF_zero : Prim2SF 0 = S754_zero false.
Proof. reflexivity. Qed.

Lemma leb_one_at_least_one r :
  (1 <=? r)%float = true -> at_least_one (Prim2SF r).
Proof.
  rewrite FloatAxioms.leb_spec, Prim2SF_one.
  pose proof (Prim2SF_valid r) as Hvalid.
  destruct (Prim2SF r) as [s | [] | | [] m e];
    unfold SFleb; cbn [at_least_one SFcompare]; try discriminate; auto.
  cbn [valid_binary] in Hvalid.
  apply andb_prop in Hvalid. destruct Hvalid as [Hcanon _].
  unfold canonical_mantissa in Hcanon. apply Z.eqb_eq in Hcanon.
  rewrite fexp_eq in Hcanon.
  destruct (Z.compare_spec (-52) e) as [<- | Hlt | Hgt];
    try discriminate; intros _; lia.
Qed.

Lemma at_least_one_nonzero r :
  at_least_one (Prim2SF r) -> (r =? 0)%float = false.
Proof.
  rewrite FloatAxioms.eqb_spec, Prim2SF_zero.
  destruct (Prim2SF r) as [s | [] | | [] m e]; cbn; tauto.
Qed.

Lemma small_nonneg_le B B' x : small_nonneg B x -> B <= B' -> small_nonneg B' x.
Proof. destruct x as [[] | | | [] m e]; cbn; intros; try tauto; lia. Qed.

Lemma digits2_pos_iter_xO m d :
  Z.pos (digits2_pos (Pos.iter xO m d)) = Z.pos (digits2_pos m) + Z.pos d.
Proof.
  induction d as [| d IH] using Pos.peano_ind.
  - cbn. lia.
  - rewrite Pos.iter_succ. cbn [digits2_pos]. lia.
Qed.

(** Aligning a mantissa changes neither its magnitude nor raises its
    exponent. *)
Lemma shl_align_digits mx ex ex' :
  Z.pos (digits2_pos (fst (shl_align mx ex ex'))) + snd (shl_align mx ex ex')
  = Z.pos (digits2_pos mx) + ex
  /\ snd (shl_align mx ex ex') <= ex.
Proof.
  unfold shl_align. destruct (ex' - ex) as [| d | d] eqn:Hd; cbn [fst snd];
    try lia.
  rewrite digits2_pos_iter_xO. lia.
Qed.

Lemma binary_normalize_small L :
  0 <= L < 2 ^ 31 ->
  small_nonneg 32 (binary_normalize prec emax L 0 false).
Proof.
  intros HL. destruct L as [| p | p]; [exact I | | lia].
  cbn [binary_normalize]. unfold binary_round.
  pose proof (shl_align_digits p 0 (fexp prec emax (Z.pos (digits2_pos p) + 0)))
    as [Hd He].
  destruct (shl_align p 0 (fexp prec emax (Z.pos (digits2_pos p) + 0)))
    as [mz ez]. cbn [fst snd] in Hd, He.
  assert (Hp : Zdigits2 (Z.pos p) <= 31) by (apply Zdigits2_le; lia).
  change (Zdigits2 (Z.pos p)) with (Z.pos (digits2_pos p)) in Hp.
  apply small_nonneg_le with (B := Z.pos (digits2_pos p) + 1); [| lia].
  apply binary_round_aux_small; cbn [Zdigits2]; lia.
Qed.

Lemma binary_normalize_valid L :
  0 <= L < 2 ^ 63 ->
  SpecFloat.valid_binary prec emax (binary_normalize prec emax L 0 false) = true.
Proof.
  intros HL.
  pose proof (of_uint63_spec (Uint63.of_Z L)) as Hspec.
  rewrite Uint63.of_Z_spec, Z.mod_small in Hspec by exact HL.
  rewrite <- Hspec. apply Prim2SF_valid.
Qed.

(** [float(L)] for a screen dimension. *)
Lemma float_of_int_small L :
  0 <= L < 2 ^ 31 ->
  exists Lf, Py.float_of_int L = Ok Lf /\ small_nonneg 32 (Prim2SF Lf).
Proof.
  intros HL. unfold Py.float_of_int.
  pose proof (binary_normalize_small L HL) as Hsmall.
  pose proof (binary_normalize_valid L ltac:(lia)) as Hvalid.
  exists (SF2Prim (binary_normalize prec emax L 0 false)).
  rewrite Prim2SF_SF2Prim by exact Hvalid.
  split; [| exact Hsmall].
  destruct (binary_normalize prec emax L 0 false) as [[] | | | [] m e];
    try contradiction; reflexivity.
Qed.

(** On a float that is zero or positive, [int] and [floor] agree. *)
Lemma int_of_float_small B f :
  small_nonneg B (Prim2SF f) ->
  exists z, Py.int_of_float f = Ok z /\ Py.floor_of_float f = Some z.
Proof.
  unfold Py.int_of_float, Py.floor_of_float, Py.trunc_mag.
  destruct (Prim2SF f) as [[] | | | [] m e]; try contradiction; intros _.
  - now exists 0.
  - eexists. split; [reflexivity |]. now destruct (0 <=? e).
Qed.

Lemma c_int_range z : - 2 ^ 31 <= c_int z < 2 ^ 31.
Proof.
  unfold c_int. pose proof (Z.mod_pos_bound (z + 2 ^ 31) (2 ^ 32) eq_refl). lia.
Qed.

(** ** The target resolution, by scale and by screen *)

Lemma float_of_int_2 : Py.float_of_int 2 = Ok 2%float.
Proof. reflexivity. Qed.

(** C7: with [scale = 2] the target size is [(int(W * 2), int(H * 2))] for a
    slide of [W] by [H] points: each dimension is doubled as a float and
    truncated by [int], which raises when the product is infinite or NaN.
    A float [2.0] gives the same, and when both conversions succeed the mode
    line is the only thing printed. *)
Theorem target_resolution_scale_2 h slide_width slide_height :
  outcome (target_resolution h slide_width slide_height (PyInt 2))
  = (target_w <~ Py.int_of_float (slide_width * 2)%float ;;
     target_h <~ Py.int_of_float (slide_height * 2)%float ;;
     Ok (target_w, target_h))%result
  /\ outcome (target_resolution h slide_width slide_height (PyFloat 2))
     = outcome (target_resolution h slide_width slide_height (PyInt 2))
  /\ forall target_w target_h,
       Py.int_of_float (slide_width * 2)%float = Ok target_w ->
       Py.int_of_float (slide_height * 2)%float = Ok target_h ->
       target_resolution h slide_width slide_height (PyInt 2)
       = ([Print "Mode: Manual Scale (2x)"], Ok (target_w, target_h)).
Proof.
  unfold target_resolution, manual_scale.
  change (Py.truthy (PyInt 2)) with true.
  change (Py.truthy (PyFloat 2)) with true.
  cbn [negb Py.float_mul]. rewrite float_of_int_2. cbn [rbind bind lift].
  split; [| split].
  3: { intros target_w target_h -> ->. reflexivity. }
  all: destruct (Py.int_of_float (slide_width * 2)) as [target_w | e];
    try reflexivity;
    cbn [bind lift];
    destruct (Py.int_of_float (slide_height * 2)) as [target_h | e'];
    reflexivity.
Qed.

(** Fractional products are truncated: a 13.5 by 7.25 slide. *)
Example target_resolution_scale_2_truncates :
  outcome (target_resolution (Samples.office_pc Samples.deck)
             6.75 3.625 (PyInt 2))
  = Ok (13, 7).
Proof. vm_compute. reflexivity. Qed.

(** C8: with no scale, a screen whose long edge [L] is not negative and a
    landscape slide (the ratio [W / H] exists and is at least one), the
    target width is [L] and the target height is [floor(L / (W / H))], the
    quotient being the float one; the mode line names the long edge. *)
Theorem target_resolution_landscape h GetSystemMetrics slide_width slide_height :
  user32 h = inr GetSystemMetrics ->
  let L := Z.max (c_int (GetSystemMetrics 0)) (c_int (GetSystemMetrics 1)) in
  0 <= L ->
  (slide_height =? 0)%float = false ->
  (1 <=? slide_width / slide_height)%float = true ->
  exists Lf target_h,
    Py.float_of_int L = Ok Lf
    /\ Py.floor_of_float (Lf / (slide_width / slide_height)) = Some target_h
    /\ target_resolution h slide_width slide_height PyNone
       = ([Print ("Mode: Auto-Resolution (Matched to Screen Long Edge: "
                  ++ Py.string_of_Z L ++ " px)")],
          Ok (L, target_h)).
Proof.
  intros Huser L HL Hheight Hratio.
  assert (HL' : 0 <= L < 2 ^ 31).
  { pose proof (c_int_range (GetSystemMetrics 0)).
    pose proof (c_int_range (GetSystemMetrics 1)). unfold L in *. lia. }
  destruct (float_of_int_small L HL') as (Lf & HLf & Hsmall).
  pose proof (leb_one_at_least_one _ Hratio) as Hone.
  pose proof (at_least_one_nonzero _ Hone) as Hnonzero.
  pose proof (SFdiv_small 32 _ _ Hsmall ltac:(lia) Hone) as Hquot.
  rewrite <- FloatAxioms.div_spec in Hquot.
  destruct (int_of_float_small _ _ Hquot) as (target_h & Hint & Hfloor).
  exists Lf, target_h. split; [exact HLf |]. split; [exact Hfloor |].
  unfold target_resolution, auto_resolution.
  change (Py.truthy PyNone) with false. cbn [negb].
  rewrite Huser. fold L.
  unfold Py.float_truediv at 1. rewrite Hheight.
  cbn [lift bind]. rewrite Hratio.
  unfold Py.int_truediv. rewrite HLf. cbn [rbind].
  unfold Py.float_truediv. rewrite Hnonzero.
  cbn [lift bind]. rewrite Hint. reflexivity.
Qed.

Lemma target_resolution_landscape_witness :
  user32 (Samples.office_pc Samples.deck)
  = inr (fun n => if n =? 0 then 1920 else 1080)
  /\ 0 <= Z.max (c_int 1920) (c_int 1080)
  /\ (540 =? 0)%float = false
  /\ (1 <=? 960 / 540)%float = true
  /\ exists Lf target_h,
       Py.float_of_int (Z.max (c_int 1920) (c_int 1080)) = Ok Lf
       /\ Py.floor_of_float (Lf / (960 / 540)) = Some target_h
       /\ target_resolution (Samples.office_pc Samples.deck) 960 540 PyNone
          = ([Print ("Mode: Auto-Resolution (Matched to Screen Long Edge: "
                     ++ Py.string_of_Z (Z.max (c_int 1920) (c_int 1080))
                     ++ " px)")],
             Ok (Z.max (c_int 1920) (c_int 1080), target_h)).
Proof.
  split; [reflexivity |].
  split; [vm_compute; discriminate |].
  split; [reflexivity |].
  split; [reflexivity |].
  apply (target_resolution_landscape (Samples.office_pc Samples.deck)
           (fun n => if n =? 0 then 1920 else 1080) 960 540).
  - reflexivity.
  - vm_compute; discriminate.
  - reflexivity.
  - reflexivity.
Defined.

(** On the 16:9 sample deck and the 1920x1080 screen the height is 1080. *)
Example target_resolution_landscape_1080 :
  target_resolution (Samples.office_pc Samples.deck) 960 540 PyNone
  = ([Print "Mode: Auto-Resolution (Matched to Screen Long Edge: 1920 px)"],
     Ok (1920, 1080)).
Proof. vm_compute. reflexivity. Qed.

(** ** The loop body, once it is reached

    When the caller hands the builtin [range] in as the [range] argument the
    loop runs over the whole document; on a host where every slide exports,
    it writes [Slide_1.png] to [Slide_n.png], in that order. *)

Lemma export_loop_all_ok h p output_path target_w target_h indices :
  (forall i, In i indices ->
     Slides p i = None
     /\ Export p i (join h output_path (image_name i)) target_w target_h = None) ->
  forall count,
    exported (trace (export_loop h p output_path target_w target_h indices count))
    = map (fun i => join h output_path (image_name i)) indices
    /\ outcome (export_loop h p output_path target_w target_h indices count)
       = Ok (count + Z.of_nat (List.length indices)).
Proof.
  induction indices as [| i rest IH]; intros Hok count.
  - cbn. split; [reflexivity | f_equal; lia].
  - destruct (Hok i (or_introl eq_refl)) as [Hslide Hexport].
    specialize (IH (fun j Hj => Hok j (or_intror Hj)) (count + 1)).
    cbn [export_loop]. rewrite Hslide, Hexport. cbn [host_call bind print].
    destruct (export_loop h p output_path target_w target_h rest (count + 1))
      as [t r].
    cbn [trace outcome fst snd] in IH |- *. destruct IH as [IHt ->].
    cbn [exported app map]. rewrite IHt. split; [reflexivity |].
    f_equal. cbn [List.length]. lia.
Qed.

Lemma range_list_length a b : List.length (Py.range_list a b) = Z.to_nat (b - a).
Proof. unfold Py.range_list. now rewrite length_map, length_seq. Qed.

Lemma range_list_In a b i : In i (Py.range_list a b) <-> a <= i < b.
Proof.
  unfold Py.range_list. rewrite in_map_iff. split.
  - intros (k & <- & Hk). apply in_seq in Hk. lia.
  - intros Hi. exists (Z.to_nat (i - a)). split; [lia |].
    apply in_seq. lia.
Qed.

Lemma convert_builtin_range h p pptx output_path scale target_w target_h :
  outcome (target_resolution h (SlideWidth p) (SlideHeight p) scale)
  = Ok (target_w, target_h) ->
  (forall i, 1 <= i <= Slides_Count p ->
     Slides p i = None /\ forall path, Export p i path target_w target_h = None) ->
  exported (trace (convert h p pptx output_path PyBuiltinRange scale))
  = map (fun i => join h output_path (image_name i))
      (Py.range_list 1 (Slides_Count p + 1))
  /\ outcome (convert h p pptx output_path PyBuiltinRange scale) = Ok tt.
Proof.
  intros Htarget Hok. unfold convert.
  change (slide_range PyBuiltinRange (Slides_Count p))
    with (Ok (PyInt 1, PyInt (Slides_Count p))).
  cbn [lift bind].
  pose proof (target_resolution_prints h (SlideWidth p) (SlideHeight p) scale)
    as Hprints.
  destruct (target_resolution h (SlideWidth p) (SlideHeight p) scale)
    as [t r]. cbn [outcome snd trace fst] in Htarget, Hprints. subst r.
  destruct (export_loop_all_ok h p output_path target_w target_h
              (Py.range_list 1 (Slides_Count p + 1))) with (count := 0)
    as [Ht Ho].
  { intros i Hi. apply range_list_In in Hi.
    destruct (Hok i ltac:(lia)) as [Hs He]. split; [exact Hs | apply He]. }
  cbn [bind print lift Py.format_d Py.add_one Py.call2 Py.index rbind].
  destruct (export_loop h p output_path target_w target_h
              (Py.range_list 1 (Slides_Count p + 1)) 0) as [t' r'].
  cbn [trace outcome fst snd] in Ht, Ho. subst r'.
  cbn [bind print trace outcome fst snd app].
  split; [| reflexivity].
  rewrite !exported_app, (exported_prints t Hprints). cbn [exported app].
  rewrite ?exported_app, Ht. cbn [exported]. now rewrite app_nil_r.
Qed.

(** A two-element tuple is skipped as a range and then called as one. *)
Example topng_tuple_range_run :
  trace (topng (Samples.office_pc Samples.deck10) "deck.pptx" "out"
           (PyTuple [PyInt 2; PyInt 3]) (PyInt 1))
  = [Call (os_makedirs "C:\work\out") true;
     Print "Created output directory: C:\work\out";
     Call (win32com_Dispatch "PowerPoint.Application") true;
     Call (Open "C:\work\deck.pptx" false) true;
     Print "Mode: Manual Scale (1x)";
     Print "Processing 'deck.pptx'...";
     Print "Target Size: 960x540 px";
     Print "Converting slides 1 to 10...";
     Print "An error occurred during conversion: 'tuple' object is not callable";
     Call Presentation_Close true].
Proof. vm_compute. reflexivity. Qed.

(** Every export of the loop asks for a PNG of the target size. *)
Lemma export_loop_uses_target h p output_path target_w target_h indices :
  forall count,
    Forall (fun ev =>
              match ev with
              | Call (Slide_Export i path fmt w h') _ =>
                  path = join h output_path (image_name i)
                  /\ fmt = "PNG" /\ w = target_w /\ h' = target_h
              | _ => True
              end)
      (trace (export_loop h p output_path target_w target_h indices count)).
Proof.
  induction indices as [| i rest IH]; intros count; cbn [export_loop].
  - constructor.
  - apply Forall_bind; [apply Forall_host_call; intros ?; exact I | intros ? _].
    apply Forall_bind; [apply Forall_host_call; intros ?; now repeat split |].
    intros ? _.
    apply Forall_bind; [apply Forall_print; exact I | intros ? _].
    apply IH.
Qed.

(** ** What a run announces

    The range of step 4 and the size of step 5 are the ones [topng] prints
    before the loop, whatever the loop does afterwards. *)
Lemma convert_announces h p pptx output_path range scale s e target_w target_h :
  slide_range range (Slides_Count p) = Ok (PyInt s, PyInt e) ->
  outcome (target_resolution h (SlideWidth p) (SlideHeight p) scale)
  = Ok (target_w, target_h) ->
  In (Print ("Target Size: " ++ Py.string_of_Z target_w ++ "x"
             ++ Py.string_of_Z target_h ++ " px"))
     (trace (convert h p pptx output_path range scale))
  /\ In (Print ("Converting slides " ++ Py.string_of_Z s ++ " to "
                ++ Py.string_of_Z e ++ "..."))
        (trace (convert h p pptx output_path range scale)).
Proof.
  intros Hrange Htarget. unfold convert. rewrite Hrange. cbn [lift bind].
  destruct (target_resolution h (SlideWidth p) (SlideHeight p) scale)
    as [t r]. cbn [outcome snd] in Htarget. subst r.
  cbn [bind print lift Py.format_d Py.add_one].
  destruct (Py.call2 range (PyInt s) (PyInt (e + 1))) as [indices | e0].
  - destruct (export_loop h p output_path target_w target_h indices 0)
      as [t' [count | e0]];
      cbn [bind print trace fst app];
      split; apply in_or_app; right; cbn [In]; auto.
  - cbn [trace fst app].
    split; apply in_or_app; right; cbn [In]; auto.
Qed.

(** ** The fallback resolution *)

(** Nothing is logged by a screen-based computation that raises: its only
    line is printed last. *)
Lemma auto_resolution_raise_silent h slide_width slide_height e :
  outcome (auto_resolution h slide_width slide_height) = Raise e ->
  trace (auto_resolution h slide_width slide_height) = [].
Proof.
  unfold auto_resolution.
  destruct (user32 h) as [e0 | GetSystemMetrics]; [reflexivity |].
  destruct (Py.float_truediv slide_width slide_height) as [slide_ratio | e0];
    [| reflexivity].
  cbn [lift bind].
  destruct (1 <=? slide_ratio)%float.
  - destruct (Py.int_truediv _ slide_ratio) as [q | e0]; [| reflexivity].
    cbn [lift bind].
    destruct (Py.int_of_float q) as [target_h | e0]; [discriminate | reflexivity].
  - destruct (Py.int_mul _ slide_ratio) as [q | e0]; [| reflexivity].
    cbn [lift bind].
    destruct (Py.int_of_float q) as [target_w | e0]; [discriminate | reflexivity].
Qed.

(** Whatever the screen-based computation raises is swallowed by the inner
    handler, and the run of step 5 is the run of the 2x fallback. *)
Lemma target_resolution_falls_back h slide_width slide_height scale e :
  Py.truthy scale = false ->
  outcome (auto_resolution h slide_width slide_height) = Raise e ->
  target_resolution h slide_width slide_height scale
  = fallback_resolution slide_width slide_height.
Proof.
  intros Hscale Hraise.
  rewrite (target_resolution_falsy _ _ _ _ Hscale).
  pose proof (auto_resolution_raise_silent _ _ _ _ Hraise) as Hsilent.
  destruct (auto_resolution h slide_width slide_height) as [t r].
  cbn [trace outcome fst snd] in Hsilent, Hraise. subst t r.
  cbn [try_except]. now destruct (fallback_resolution slide_width slide_height).
Qed.

(** The fallback computes the size of [scale = 2]; only the mode line
    differs. *)
Lemma fallback_resolution_outcome h slide_width slide_height :
  outcome (fallback_resolution slide_width slide_height)
  = outcome (target_resolution h slide_width slide_height (PyInt 2)).
Proof.
  unfold target_resolution, manual_scale, fallback_resolution.
  change (Py.truthy (PyInt 2)) with true. cbn [negb].
  destruct (Py.float_mul slide_width (PyInt 2)) as [ws | e]; [| reflexivity].
  cbn [lift bind].
  destruct (Py.int_of_float ws) as [target_w | e]; [| reflexivity].
  cbn [lift bind].
  destruct (Py.float_mul slide_height (PyInt 2)) as [hs | e]; [| reflexivity].
  cbn [lift bind].
  destruct (Py.int_of_float hs) as [target_h | e]; reflexivity.
Qed.

(** X1: when the screen metrics cannot be queried ([ctypes.windll.user32]
    raises) and no scale is given, step 5 does not fail: it is the run of
    the 2x fallback, whose size is the one [scale = 2] computes. *)
Theorem target_resolution_without_screen h slide_width slide_height scale e :
  Py.truthy scale = false ->
  user32 h = inl e ->
  target_resolution h slide_width slide_height scale
  = fallback_resolution slide_width slide_height
  /\ outcome (target_resolution h slide_width slide_height scale)
     = outcome (target_resolution h slide_width slide_height (PyInt 2)).
Proof.
  intros Hscale Huser.
  assert (Hrun : target_resolution h slide_width slide_height scale
                 = fallback_resolution slide_width slide_height).
  { apply target_resolution_falls_back with (e := e); [exact Hscale |].
    unfold auto_resolution. now rewrite Huser. }
  split; [exact Hrun |].
  rewrite Hrun. apply fallback_resolution_outcome.
Qed.

Lemma target_resolution_without_screen_witness :
  Py.truthy PyNone = false
  /\ user32 (Scenarios.no_ctypes_pc Samples.deck)
     = inl (AttributeError "module 'ctypes' has no attribute 'windll'")
  /\ (target_resolution (Scenarios.no_ctypes_pc Samples.deck) 960 540 PyNone
      = fallback_resolution 960 540
      /\ outcome (target_resolution (Scenarios.no_ctypes_pc Samples.deck)
                    960 540 PyNone)
         = outcome (target_resolution (Scenarios.no_ctypes_pc Samples.deck)
                      960 540 (PyInt 2))).
Proof.
  split; [reflexivity |]. split; [reflexivity |].
  apply (target_resolution_without_screen (Scenarios.no_ctypes_pc Samples.deck)
           960 540 PyNone
           (AttributeError "module 'ctypes' has no attribute 'windll'"));
    reflexivity.
Defined.

(** On the sample deck the fallback size is 1920 by 1080. *)
Example fallback_resolution_sample :
  target_resolution (Scenarios.no_ctypes_pc Samples.deck) 960 540 PyNone
  = ([Print "Mode: Fallback Resolution (2x)"], Ok (1920, 1080)).
Proof. vm_compute. reflexivity. Qed.

(** X2: a slide height of zero (of either sign) does not surface as a
    [ZeroDivisionError]: with no scale, the division by it is caught by the
    inner handler and step 5 is the run of the 2x fallback, on every
    host. *)
Theorem target_resolution_zero_height h slide_width slide_height scale :
  Py.truthy scale = false ->
  (slide_height =? 0)%float = true ->
  target_resolution h slide_width slide_height scale
  = fallback_resolution slide_width slide_height.
Proof.
  intros Hscale Hzero.
  destruct (user32 h) as [e | GetSystemMetrics] eqn:Huser.
  - apply target_resolution_falls_back with (e := e); [exact Hscale |].
    unfold auto_resolution. now rewrite Huser.
  - apply target_resolution_falls_back
      with (e := ZeroDivisionError "float division by zero");
      [exact Hscale |].
    unfold auto_resolution, Py.float_truediv. now rewrite Huser, Hzero.
Qed.

Lemma target_resolution_zero_height_witness :
  Py.truthy PyNone = false
  /\ (0 =? 0)%float = true
  /\ target_resolution (Samples.office_pc Scenarios.flat_deck) 960 0 PyNone
     = fallback_resolution 960 0.
Proof.
  split; [reflexivity |]. split; [reflexivity |].
  apply (target_resolution_zero_height
           (Samples.office_pc Scenarios.flat_deck) 960 0 PyNone);
    reflexivity.
Defined.

(** The fallback of a flat deck: twice the width, height zero. *)
Example fallback_resolution_flat :
  target_resolution (Samples.office_pc Scenarios.flat_deck) 960 0 PyNone
  = ([Print "Mode: Fallback Resolution (2x)"], Ok (1920, 0)).
Proof. vm_compute. reflexivity. Qed.

(** ** Portrait slides *)

Lemma digits2_pos_mul m1 m2 :
  Z.pos (digits2_pos (m1 * m2))
  <= Z.pos (digits2_pos m1) + Z.pos (digits2_pos m2).
Proof.
  change (Z.pos (digits2_pos (m1 * m2))) with (Zdigits2 (Z.pos m1 * Z.pos m2)).
  apply Zdigits2_le; try lia.
  pose proof (Zdigits2_upper (Z.pos m1) ltac:(lia)) as H1.
  pose proof (Zdigits2_upper (Z.pos m2) ltac:(lia)) as H2.
  cbn [Zdigits2] in H1, H2.
  rewrite Z.pow_add_r by lia. nia.
Qed.

Lemma small_nonneg_nonneg_finite B x : small_nonneg B x -> nonneg_finite B x.
Proof. destruct x as [[] | | | [] m e]; cbn; tauto. Qed.

(** The product of a small float that is not negative with a float below
    one is again finite and not negative. *)
Lemma SFmul_small B x y :
  small_nonneg B x -> 0 <= B <= 972 -> below_one y ->
  nonneg_finite (B + 1) (SFmul prec emax x y).
Proof.
  intros Hx HB Hy.
  destruct x as [[] | | | [] mx ex]; try contradiction;
    destruct y as [sy | | | [] my ey]; try contradiction; try exact I.
  cbn [small_nonneg below_one] in Hx, Hy. cbn [SFmul xorb].
  pose proof (digits2_pos_mul mx my) as Hmul.
  apply small_nonneg_nonneg_finite.
  apply binary_round_aux_small; cbn [Zdigits2]; lia.
Qed.

Lemma ratio_below_one r :
  (1 <=? r)%float = false -> (0 <=? r)%float = true -> below_one (Prim2SF r).
Proof.
  rewrite !FloatAxioms.leb_spec, Prim2SF_one, Prim2SF_zero.
  pose proof (Prim2SF_valid r) as Hvalid.
  destruct (Prim2SF r) as [s | [] | | [] m e];
    unfold SFleb; cbn [below_one SFcompare]; try discriminate; auto.
  cbn [valid_binary] in Hvalid.
  apply andb_prop in Hvalid. destruct Hvalid as [Hcanon _].
  unfold canonical_mantissa in Hcanon. apply Z.eqb_eq in Hcanon.
  rewrite fexp_eq in Hcanon.
  destruct (Z.compare_spec (-52) e) as [<- | Hlt | Hgt];
    try discriminate; [| intros _ _; lia].
  rewrite Pos.compare_cont_spec, Pos2Z.inj_compare.
  destruct (Z.compare_spec 4503599627370496 (Z.pos m)) as [Heq | Hm | Hm];
    cbn [Pos.switch_Eq]; try discriminate.
  intros _ _.
  assert (Hd : Zdigits2 (Z.pos m) <= 52).
  { apply (proj2 (Zdigits2_le (Z.pos m) 52 (Pos2Z.is_nonneg m) ltac:(discriminate))).
    change (2 ^ 52) with 4503599627370496. exact Hm. }
  cbn [Zdigits2] in Hd. lia.
Qed.

(** On a float that is zero or positive, [int] and [floor] agree. *)
Lemma int_of_float_nonneg_finite B f :
  nonneg_finite B (Prim2SF f) ->
  exists z, Py.int_of_float f = Ok z /\ Py.floor_of_float f = Some z.
Proof.
  unfold Py.int_of_float, Py.floor_of_float, Py.trunc_mag.
  destruct (Prim2SF f) as [s | | | [] m e]; try contradiction; intros _.
  - now exists 0.
  - eexists. split; [reflexivity |]. now destruct (0 <=? e).
Qed.

(** X3: with no scale, a screen whose long edge [L] is not negative and a
    portrait slide (the ratio [W / H] exists and lies between zero and one,
    one excluded), the roles are swapped: the target height is [L] and the
    target width is [floor(L * (W / H))], the product being the float one.
    The branch cannot fail. *)
Theorem target_resolution_portrait h GetSystemMetrics slide_width slide_height :
  user32 h = inr GetSystemMetrics ->
  let L := Z.max (c_int (GetSystemMetrics 0)) (c_int (GetSystemMetrics 1)) in
  0 <= L ->
  (slide_height =? 0)%float = false ->
  (1 <=? slide_width / slide_height)%float = false ->
  (0 <=? slide_width / slide_height)%float = true ->
  exists Lf target_w,
    Py.float_of_int L = Ok Lf
    /\ Py.floor_of_float (Lf * (slide_width / slide_height)) = Some target_w
    /\ target_resolution h slide_width slide_height PyNone
       = ([Print ("Mode: Auto-Resolution (Matched to Screen Long Edge: "
                  ++ Py.string_of_Z L ++ " px)")],
          Ok (target_w, L)).
Proof.
  intros Huser L HL Hheight Hratio Hpos.
  assert (HL' : 0 <= L < 2 ^ 31).
  { pose proof (c_int_range (GetSystemMetrics 0)).
    pose proof (c_int_range (GetSystemMetrics 1)). unfold L in *. lia. }
  destruct (float_of_int_small L HL') as (Lf & HLf & Hsmall).
  pose proof (ratio_below_one _ Hratio Hpos) as Hbelow.
  pose proof (SFmul_small 32 _ _ Hsmall ltac:(lia) Hbelow) as Hprod.
  rewrite <- FloatAxioms.mul_spec in Hprod.
  destruct (int_of_float_nonneg_finite _ _ Hprod) as (target_w & Hint & Hfloor).
  exists Lf, target_w. split; [exact HLf |]. split; [exact Hfloor |].
  unfold target_resolution, auto_resolution.
  change (Py.truthy PyNone) with false. cbn [negb].
  rewrite Huser. fold L.
  unfold Py.float_truediv. rewrite Hheight.
  cbn [lift bind]. rewrite Hratio.
  unfold Py.int_mul. rewrite HLf. cbn [rbind lift bind].
  rewrite Hint. reflexivity.
Qed.

Lemma target_resolution_portrait_witness :
  user32 (Samples.office_pc Scenarios.portrait_deck)
  = inr (fun n => if n =? 0 then 1920 else 1080)
  /\ 0 <= Z.max (c_int 1920) (c_int 1080)
  /\ (960 =? 0)%float = false
  /\ (1 <=? 540 / 960)%float = false
  /\ (0 <=? 540 / 960)%float = true
  /\ exists Lf target_w,
       Py.float_of_int (Z.max (c_int 1920) (c_int 1080)) = Ok Lf
       /\ Py.floor_of_float (Lf * (540 / 960)) = Some target_w
       /\ target_resolution (Samples.office_pc Scenarios.portrait_deck)
            540 960 PyNone
          = ([Print ("Mode: Auto-Resolution (Matched to Screen Long Edge: "
                     ++ Py.string_of_Z (Z.max (c_int 1920) (c_int 1080))
                     ++ " px)")],
             Ok (target_w, Z.max (c_int 1920) (c_int 1080))).
Proof.
  split; [reflexivity |].
  split; [vm_compute; discriminate |].
  split; [reflexivity |].
  split; [reflexivity |].
  split; [reflexivity |].
  apply (target_resolution_portrait (Samples.office_pc Scenarios.portrait_deck)
           (fun n => if n =? 0 then 1920 else 1080) 540 960).
  - reflexivity.
  - vm_compute; discriminate.
  - reflexivity.
  - reflexivity.
  - reflexivity.
Defined.

(** On the 9:16 sample deck and the 1920x1080 screen the size is 1080 by
    1920. *)
Example target_resolution_portrait_1080 :
  target_resolution (Samples.office_pc Scenarios.portrait_deck) 540 960 PyNone
  = ([Print "Mode: Auto-Resolution (Matched to Screen Long Edge: 1920 px)"],
     Ok (1080, 1920)).
Proof. vm_compute. reflexivity. Qed.

(** ** Runs that stop before the presentation is open *)

(** X4: when PowerPoint cannot be started ([Dispatch] raises), [topng]
    prints the two error lines, the second with the text of the exception,
    and returns normally; after the [Dispatch] call it makes no call at all:
    nothing is opened, exported or closed. *)
Theorem topng_without_powerpoint h pptx output_dir range scale e :
  exists_ h (abspath h pptx) = true ->
  output_dir_error h (abspath h output_dir) = None ->
  Dispatch h = Some e ->
  topng h pptx output_dir range scale
  = ((output_dir_events h (abspath h output_dir)
      ++ [dispatch_event false;
          Print ("Error: Could not initialize PowerPoint. "
                 ++ "Make sure Microsoft PowerPoint is installed.");
          Print ("Details: " ++ str_exc e)])%list,
     Ok tt).
Proof.
  intros Hexists Hdir Hdispatch.
  pose proof (topng_shape h pptx output_dir range scale) as Hshape.
  cbv zeta in Hshape. now rewrite Hexists, Hdir, Hdispatch in Hshape.
Qed.

Lemma topng_without_powerpoint_witness :
  exists_ Scenarios.no_powerpoint_pc
    (abspath Scenarios.no_powerpoint_pc "deck.pptx") = true
  /\ output_dir_error Scenarios.no_powerpoint_pc
       (abspath Scenarios.no_powerpoint_pc "out") = None
  /\ Dispatch Scenarios.no_powerpoint_pc
     = Some (com_error "Invalid class string")
  /\ topng Scenarios.no_powerpoint_pc "deck.pptx" "out" PyNone PyNone
     = ((output_dir_events Scenarios.no_powerpoint_pc
           (abspath Scenarios.no_powerpoint_pc "out")
         ++ [dispatch_event false;
             Print ("Error: Could not initialize PowerPoint. "
                    ++ "Make sure Microsoft PowerPoint is installed.");
             Print ("Details: " ++ str_exc (com_error "Invalid class string"))])%list,
        Ok tt).
Proof.
  split; [reflexivity |]. split; [reflexivity |]. split; [reflexivity |].
  apply (topng_without_powerpoint Scenarios.no_powerpoint_pc "deck.pptx" "out"
           PyNone PyNone (com_error "Invalid class string"));
    reflexivity.
Defined.

(** X5: when [Presentations.Open] raises, [topng] reports the exception and
    returns normally; [presentation] is still [None] in the [finally]
    clause, so [Close] is not called. *)
Theorem topng_open_fails h pptx output_dir range scale e :
  exists_ h (abspath h pptx) = true ->
  output_dir_error h (abspath h output_dir) = None ->
  Dispatch h = None ->
  Presentations_Open h (abspath h pptx) = inl e ->
  topng h pptx output_dir range scale
  = ((output_dir_events h (abspath h output_dir)
      ++ [dispatch_event true;
          Call (Open (abspath h pptx) false) false;
          Print ("An error occurred during conversion: " ++ str_exc e)])%list,
     Ok tt).
Proof.
  intros Hexists Hdir Hdispatch Hopen.
  pose proof (topng_shape h pptx output_dir range scale) as Hshape.
  cbv zeta in Hshape. rewrite Hexists, Hdir, Hdispatch in Hshape.
  rewrite Hshape, open_and_convert_shape, Hopen. reflexivity.
Qed.

Lemma topng_open_fails_witness :
  exists_ Scenarios.corrupt_file_pc
    (abspath Scenarios.corrupt_file_pc "deck.pptx") = true
  /\ output_dir_error Scenarios.corrupt_file_pc
       (abspath Scenarios.corrupt_file_pc "out") = None
  /\ Dispatch Scenarios.corrupt_file_pc = None
  /\ Presentations_Open Scenarios.corrupt_file_pc
       (abspath Scenarios.corrupt_file_pc "deck.pptx")
     = inl (com_error "PowerPoint could not open the file.")
  /\ topng Scenarios.corrupt_file_pc "deck.pptx" "out" PyNone PyNone
     = ((output_dir_events Scenarios.corrupt_file_pc
           (abspath Scenarios.corrupt_file_pc "out")
         ++ [dispatch_event true;
             Call (Open (abspath Scenarios.corrupt_file_pc "deck.pptx") false)
                  false;
             Print ("An error occurred during conversion: "
                    ++ str_exc (com_error "PowerPoint could not open the file."))])%list,
        Ok tt).
Proof.
  split; [reflexivity |]. split; [reflexivity |]. split; [reflexivity |].
  split; [reflexivity |].
  apply (topng_open_fails Scenarios.corrupt_file_pc "deck.pptx" "out"
           PyNone PyNone (com_error "PowerPoint could not open the file."));
    reflexivity.
Defined.

(** X6: in every run of [topng], [presentation.Close()] is called once if
    the [Open] call returned and not at all otherwise: the [finally] clause
    never closes a document that was not opened, and never closes twice. *)
Theorem topng_close_matches_open h pptx output_dir range scale :
  closes (trace (topng h pptx output_dir range scale))
  = if opened (trace (topng h pptx output_dir range scale)) then 1%nat
    else 0%nat.
Proof.
  pose proof (topng_shape h pptx output_dir range scale) as Hshape.
  cbv zeta in Hshape.
  destruct (output_dir_events_quiet h (abspath h output_dir)) as [Hc Ho].
  destruct (exists_ h (abspath h pptx)); [| now rewrite Hshape].
  destruct (output_dir_error h (abspath h output_dir)); [now rewrite Hshape |].
  destruct (Dispatch h).
  { rewrite Hshape. cbn [trace fst]. now rewrite closes_app, opened_app, Hc, Ho. }
  rewrite Hshape, open_and_convert_shape. clear Hshape.
  destruct (Presentations_Open h (abspath h pptx)) as [e | p]; cbn [trace fst].
  { now rewrite closes_app, opened_app, Hc, Ho. }
  destruct (conversion_events_quiet _
              (conversion_log_events h p pptx (abspath h output_dir) range scale))
    as (Hlog & _ & _).
  rewrite opened_app, Ho.
  change (dispatch_event true :: Call (Open (abspath h pptx) false) true
          :: conversion_log h p pptx (abspath h output_dir) range scale
          ++ [close_event p])%list
    with ([dispatch_event true; Call (Open (abspath h pptx) false) true]
          ++ conversion_log h p pptx (abspath h output_dir) range scale
          ++ [close_event p])%list.
  rewrite !closes_app, Hc, Hlog. reflexivity.
Qed.

(** ** The output directory *)

Lemma conversion_events_no_makedirs t :
  Forall conversion_event t -> makedirs_calls t = [].
Proof.
  unfold makedirs_calls.
  induction 1 as [| ev t Hev _ IH]; [reflexivity |].
  destruct ev as [line | [] ok]; cbn in *; try contradiction; exact IH.
Qed.

Lemma makedirs_calls_app t1 t2 :
  makedirs_calls (t1 ++ t2) = (makedirs_calls t1 ++ makedirs_calls t2)%list.
Proof. apply filter_app. Qed.

(** X7: [os.makedirs] is called exactly when the document exists and the
    output path does not; then it is called once, on the absolute output
    path.  In particular an existing output directory is never created
    again. *)
Theorem topng_makedirs_calls h pptx output_dir range scale :
  makedirs_calls (trace (topng h pptx output_dir range scale))
  = if exists_ h (abspath h pptx) && negb (exists_ h (abspath h output_dir))
    then [Call (os_makedirs (abspath h output_dir))
            (match makedirs h (abspath h output_dir) with
             | None => true
             | Some _ => false
             end)]
    else [].
Proof.
  pose proof (topng_shape h pptx output_dir range scale) as Hshape.
  cbv zeta in Hshape. unfold output_dir_error, output_dir_events in Hshape.
  destruct (exists_ h (abspath h pptx)); [| now rewrite Hshape].
  cbn [andb].
  assert (Hinner :
            makedirs_calls
              (trace (open_and_convert h pptx (abspath h pptx)
                        (abspath h output_dir) range scale)) = []).
  { rewrite open_and_convert_shape.
    destruct (Presentations_Open h (abspath h pptx)) as [e | p];
      [reflexivity |].
    cbn [trace fst]. change (?x :: ?l ++ ?r)%list with ([x] ++ l ++ r)%list.
    rewrite !makedirs_calls_app.
    rewrite (conversion_events_no_makedirs _
               (conversion_log_events h p pptx (abspath h output_dir)
                  range scale)).
    reflexivity. }
  destruct (exists_ h (abspath h output_dir)); cbn [negb].
  - destruct (Dispatch h); rewrite Hshape; [reflexivity |].
    cbn [trace fst app].
    change (?x :: ?l)%list with ([x] ++ l)%list.
    now rewrite makedirs_calls_app, Hinner.
  - destruct (makedirs h (abspath h output_dir)); [now rewrite Hshape |].
    destruct (Dispatch h); rewrite Hshape; [reflexivity |].
    cbn [trace fst app].
    change (?a :: ?b :: ?x :: ?l)%list with ([a; b; x] ++ l)%list.
    now rewrite makedirs_calls_app, Hinner.
Qed.

(** ** Scales that are not numbers *)

Lemma float_mul_sequence f scale :
  is_sequence scale = true ->
  Py.float_mul f scale
  = Raise (TypeError "can't multiply sequence by non-int of type 'float'").
Proof. destruct scale; try discriminate; reflexivity. Qed.

(** X8: a scale that is a string, list or tuple and not empty (say
    [scale="2"]) is not converted to a number: the product with the slide
    width raises [TypeError].  Once the document is open and the range is
    computed, the run is: the error is reported, nothing is exported and the
    document is closed. *)
Theorem topng_sequence_scale h pptx output_dir range scale p r :
  exists_ h (abspath h pptx) = true ->
  output_dir_error h (abspath h output_dir) = None ->
  Dispatch h = None ->
  Presentations_Open h (abspath h pptx) = inr p ->
  slide_range range (Slides_Count p) = Ok r ->
  is_sequence scale = true ->
  Py.truthy scale = true ->
  topng h pptx output_dir range scale
  = ((output_dir_events h (abspath h output_dir)
      ++ [dispatch_event true;
          Call (Open (abspath h pptx) false) true;
          Print ("An error occurred during conversion: "
                 ++ "can't multiply sequence by non-int of type 'float'");
          close_event p])%list,
     close_outcome p).
Proof.
  intros Hexists Hdir Hdispatch Hopen Hrange Hseq Htruthy.
  pose proof (topng_shape h pptx output_dir range scale) as Hshape.
  cbv zeta in Hshape. rewrite Hexists, Hdir, Hdispatch in Hshape.
  rewrite Hshape, open_and_convert_shape, Hopen. cbn [trace outcome fst snd].
  assert (Hlog : conversion_log h p pptx (abspath h output_dir) range scale
                 = [Print ("An error occurred during conversion: "
                           ++ "can't multiply sequence by non-int of type 'float'")]).
  { unfold conversion_log, convert, target_resolution, manual_scale.
    rewrite Hrange, Htruthy. destruct r as [start_slide end_slide].
    cbn [lift bind negb]. rewrite (float_mul_sequence _ _ Hseq).
    reflexivity. }
  rewrite Hlog. reflexivity.
Qed.

Lemma topng_sequence_scale_witness :
  exists_ (Samples.office_pc Samples.deck)
    (abspath (Samples.office_pc Samples.deck) "deck.pptx") = true
  /\ output_dir_error (Samples.office_pc Samples.deck)
       (abspath (Samples.office_pc Samples.deck) "out") = None
  /\ Dispatch (Samples.office_pc Samples.deck) = None
  /\ Presentations_Open (Samples.office_pc Samples.deck)
       (abspath (Samples.office_pc Samples.deck) "deck.pptx")
     = inr Samples.deck
  /\ slide_range PyBuiltinRange (Slides_Count Samples.deck)
     = Ok (PyInt 1, PyInt 3)
  /\ is_sequence (PyStr "2") = true
  /\ Py.truthy (PyStr "2") = true
  /\ topng (Samples.office_pc Samples.deck) "deck.pptx" "out"
       PyBuiltinRange (PyStr "2")
     = ((output_dir_events (Samples.office_pc Samples.deck)
           (abspath (Samples.office_pc Samples.deck) "out")
         ++ [dispatch_event true;
             Call (Open (abspath (Samples.office_pc Samples.deck) "deck.pptx")
                     false) true;
             Print ("An error occurred during conversion: "
                    ++ "can't multiply sequence by non-int of type 'float'");
             close_event Samples.deck])%list,
        close_outcome Samples.deck).
Proof.
  repeat (split; [reflexivity |]).
  apply (topng_sequence_scale (Samples.office_pc Samples.deck) "deck.pptx" "out"
           PyBuiltinRange (PyStr "2") Samples.deck (PyInt 1, PyInt 3));
    reflexivity.
Defined.

(** ** Image names *)

Lemma to_uint_not_nil p : Pos.to_uint p <> Decimal.Nil.
Proof.
  intros Hnil.
  pose proof (DecimalPos.Unsigned.of_to p) as Hof.
  rewrite Hnil in Hof. discriminate Hof.
Qed.

(** The decimal text of an integer determines the integer. *)
Lemma string_of_Z_inj a b : Py.string_of_Z a = Py.string_of_Z b -> a = b.
Proof.
  unfold Py.string_of_Z. intros Heq.
  apply DecimalZ.to_int_inj.
  assert (Hisi : forall z,
             NilZero.int_of_string (NilZero.string_of_int (Z.to_int z))
             = Some (Z.to_int z)).
  { intros z. apply NilZero.isi; destruct z as [| p | p]; cbn;
      try discriminate; intros [= Hp]; now apply to_uint_not_nil in Hp. }
  pose proof (Hisi a) as Ha. rewrite Heq, Hisi in Ha. now injection Ha.
Qed.

Lemma string_length_append s t :
  String.length (s ++ t) = (String.length s + String.length t)%nat.
Proof. induction s as [| c s IH]; cbn; [reflexivity | now rewrite IH]. Qed.

Lemma string_append_inj_r s1 s2 t : s1 ++ t = s2 ++ t -> s1 = s2.
Proof.
  revert s2. induction s1 as [| c s1 IH]; intros [| c' s2] Heq; cbn in Heq.
  - reflexivity.
  - apply (f_equal String.length) in Heq. cbn in Heq.
    rewrite string_length_append in Heq. lia.
  - apply (f_equal String.length) in Heq. cbn in Heq.
    rewrite string_length_append in Heq. lia.
  - injection Heq as -> Heq. f_equal. now apply IH.
Qed.

(** X9: two slides never share an image name: [Slide_<i>.png] determines
    the slide index [i], so no export overwrites the image of another
    slide in the output directory. *)
Theorem image_name_inj i j : image_name i = image_name j <-> i = j.
Proof.
  split; [| now intros ->].
  unfold image_name. intros Heq.
  injection Heq as Heq.
  apply string_append_inj_r in Heq. now apply string_of_Z_inj.
Qed.

(** Names of the first slides and of an index no document has. *)
Example image_name_samples :
  map image_name [1; 2; 10; 0; -3]
  = ["Slide_1.png"; "Slide_2.png"; "Slide_10.png"; "Slide_0.png";
     "Slide_-3.png"].
Proof. vm_compute. reflexivity. Qed.

(** ** Clamping twice *)

(** X10: a range within the document is taken as it is, and the effective
    range is a fixed point of the clamping: asking for the effective range
    again changes nothing. *)
Theorem slide_range_fixed_point a b total_slides :
  (1 <= a -> b <= total_slides ->
   slide_range (PyList [PyInt a; PyInt b]) total_slides = Ok (PyInt a, PyInt b))
  /\ slide_range (PyList [PyInt (Z.max 1 a); PyInt (Z.min total_slides b)])
       total_slides
     = slide_range (PyList [PyInt a; PyInt b]) total_slides.
Proof.
  rewrite !slide_range_ints. split.
  - intros Ha Hb. now rewrite Z.max_r, Z.min_r by lia.
  - replace (Z.max 1 (Z.max 1 a)) with (Z.max 1 a) by lia.
    now replace (Z.min total_slides (Z.min total_slides b))
      with (Z.min total_slides b) by lia.
Qed.

(** ** What the loop writes *)

(** The loop exports in the order of its indices and stops at the first
    slide that fails: what it has written is a prefix of what it was asked
    to write. *)
Lemma export_loop_prefix h p output_path target_w target_h indices :
  forall count,
    exists n,
      exported (trace (export_loop h p output_path target_w target_h
                         indices count))
      = firstn n (map (fun i => join h output_path (image_name i)) indices).
Proof.
  induction indices as [| i rest IH]; intros count.
  - now exists 0%nat.
  - cbn [export_loop].
    destruct (Slides p i) as [e |]; [now exists 0%nat |].
    destruct (Export p i (join h output_path (image_name i)) target_w target_h)
      as [e |]; [now exists 0%nat |].
    destruct (IH (count + 1)) as [n Hn].
    exists (S n). cbn [host_call bind print].
    destruct (export_loop h p output_path target_w target_h rest (count + 1))
      as [t r].
    cbn [trace fst] in Hn |- *. cbn [exported app map firstn]. now rewrite Hn.
Qed.

Lemma convert_exports_prefix h p pptx output_path range scale :
  exists n,
    exported (trace (convert h p pptx output_path range scale))
    = firstn n (planned_paths h output_path p).
Proof.
  assert (Hquiet : range <> PyBuiltinRange ->
            exists n,
              exported (trace (convert h p pptx output_path range scale))
              = firstn n (planned_paths h output_path p)).
  { intros Hr. exists 0%nat.
    apply exported_prints. now apply convert_not_callable. }
  destruct range; try (apply Hquiet; discriminate). clear Hquiet.
  unfold convert, planned_paths.
  change (slide_range PyBuiltinRange (Slides_Count p))
    with (Ok (PyInt 1, PyInt (Slides_Count p))).
  cbn [lift bind].
  pose proof (target_resolution_prints h (SlideWidth p) (SlideHeight p) scale)
    as Hprints.
  destruct (target_resolution h (SlideWidth p) (SlideHeight p) scale)
    as [t [[target_w target_h] | e]]; cbn [trace fst] in Hprints.
  2: { exists 0%nat. cbn [bind trace fst]. now apply exported_prints. }
  cbn [bind print lift Py.format_d Py.add_one Py.call2 Py.index rbind].
  destruct (export_loop_prefix h p output_path target_w target_h
              (Py.range_list 1 (Slides_Count p + 1)) 0) as [n Hn].
  exists n.
  destruct (export_loop h p output_path target_w target_h
              (Py.range_list 1 (Slides_Count p + 1)) 0) as [t' [count | e]];
    cbn [trace fst] in Hn;
    cbn [bind print trace fst app];
    rewrite !exported_app, (exported_prints t Hprints); cbn [exported app];
    rewrite ?exported_app, Hn; cbn [exported]; now rewrite ?app_nil_r.
Qed.

(** X11: for a [range] argument that is a value of the model (one that is
    not callable: [None], a bool, a number, a string, a plain list or
    tuple; or the builtin [range] itself, and no other callable), whatever
    the host and the other arguments,
    the images a run of [topng] writes are the first [n] of [Slide_1.png],
    [Slide_2.png], ... of the opened document in the output directory, for
    some [n]: slides are exported in increasing order, none is skipped,
    nothing else is written, and nothing at all when the document was not
    opened. *)
Theorem topng_exports_prefix h pptx output_dir range scale :
  exists n,
    exported (trace (topng h pptx output_dir range scale))
    = firstn n
        match Presentations_Open h (abspath h pptx) with
        | inr p => planned_paths h (abspath h output_dir) p
        | inl _ => []
        end.
Proof.
  pose proof (topng_shape h pptx output_dir range scale) as Hshape.
  cbv zeta in Hshape.
  assert (Hdir : exported (output_dir_events h (abspath h output_dir)) = []).
  { unfold output_dir_events. now destruct (exists_ h (abspath h output_dir)). }
  destruct (exists_ h (abspath h pptx));
    [| exists 0%nat; now rewrite Hshape].
  destruct (output_dir_error h (abspath h output_dir));
    [exists 0%nat; now rewrite Hshape |].
  destruct (Dispatch h).
  { exists 0%nat. rewrite Hshape. cbn [trace fst].
    now rewrite exported_app, Hdir. }
  rewrite Hshape, open_and_convert_shape. clear Hshape.
  destruct (Presentations_Open h (abspath h pptx)) as [e | p]; cbn [trace fst].
  { exists 0%nat. now rewrite exported_app, Hdir. }
  destruct (convert_exports_prefix h p pptx (abspath h output_dir) range scale)
    as [n Hn].
  exists n. rewrite exported_app, Hdir. cbn [exported app].
  rewrite exported_app. cbn [exported close_event]. rewrite app_nil_r.
  unfold conversion_log. rewrite trace_try_except, exported_app, Hn.
  destruct (outcome (convert h p pptx (abspath h output_dir) range scale));
    cbn [trace fst print exported]; now rewrite app_nil_r.
Qed.

(** A disk that fills up at the second slide leaves the first image only. *)
Example topng_exports_prefix_disk_full :
  exported (trace (topng (Samples.office_pc Samples.deck_disk_full)
                     "deck.pptx" "out" PyBuiltinRange PyNone))
  = firstn 1 (planned_paths (Samples.office_pc Samples.deck_disk_full)
                "C:\work\out" Samples.deck_disk_full).
Proof. vm_compute. reflexivity. Qed.

(** ** A complete conversion *)

Lemma planned_paths_length h output_path p :
  0 <= Slides_Count p ->
  List.length (planned_paths h output_path p) = Z.to_nat (Slides_Count p).
Proof.
  intros Hn. unfold planned_paths.
  rewrite length_map, range_list_length. f_equal. lia.
Qed.

(** X12: the whole conversion, for a caller that hands the builtin [range]
    in as [range] (the one way past the shadowed name): on a host where the
    output directory is there or can be made, PowerPoint starts, the
    document opens, the size is computed and every slide exports, [topng]
    writes exactly the [Slides_Count] images [Slide_1.png] to [Slide_n.png],
    in order, and announces that count in its last line. *)
Theorem topng_converts_whole_document h pptx output_dir scale p
    target_w target_h :
  exists_ h (abspath h pptx) = true ->
  output_dir_error h (abspath h output_dir) = None ->
  Dispatch h = None ->
  Presentations_Open h (abspath h pptx) = inr p ->
  0 <= Slides_Count p ->
  outcome (target_resolution h (SlideWidth p) (SlideHeight p) scale)
  = Ok (target_w, target_h) ->
  (forall i, 1 <= i <= Slides_Count p ->
     Slides p i = None /\ forall path, Export p i path target_w target_h = None) ->
  exported (trace (topng h pptx output_dir PyBuiltinRange scale))
  = planned_paths h (abspath h output_dir) p
  /\ List.length (exported (trace (topng h pptx output_dir PyBuiltinRange scale)))
     = Z.to_nat (Slides_Count p)
  /\ In (Print ("Done! " ++ Py.string_of_Z (Slides_Count p)
                ++ " images saved to '" ++ abspath h output_dir ++ "'."))
        (trace (topng h pptx output_dir PyBuiltinRange scale)).
Proof.
  intros Hexists Hdir Hdispatch Hopen Hcount Htarget Hok.
  pose proof (topng_shape h pptx output_dir PyBuiltinRange scale) as Hshape.
  cbv zeta in Hshape. rewrite Hexists, Hdir, Hdispatch in Hshape.
  rewrite Hshape, open_and_convert_shape, Hopen. clear Hshape.
  cbn [trace fst].
  assert (Hevents : exported (output_dir_events h (abspath h output_dir)) = []).
  { unfold output_dir_events. now destruct (exists_ h (abspath h output_dir)). }
  (* the trace of the conversion itself *)
  assert (Hlog : exists t,
             Forall is_print t
             /\ conversion_log h p pptx (abspath h output_dir) PyBuiltinRange scale
                = (t ++ trace (export_loop h p (abspath h output_dir)
                                 target_w target_h
                                 (Py.range_list 1 (Slides_Count p + 1)) 0)
                   ++ [Print ("Done! " ++ Py.string_of_Z (Slides_Count p)
                              ++ " images saved to '" ++ abspath h output_dir
                              ++ "'.")])%list).
  { unfold conversion_log, convert.
    change (slide_range PyBuiltinRange (Slides_Count p))
      with (Ok (PyInt 1, PyInt (Slides_Count p))).
    cbn [lift bind].
    pose proof (target_resolution_prints h (SlideWidth p) (SlideHeight p) scale)
      as Hprints.
    destruct (target_resolution h (SlideWidth p) (SlideHeight p) scale)
      as [t r]. cbn [outcome snd trace fst] in Htarget, Hprints. subst r.
    destruct (export_loop_all_ok h p (abspath h output_dir) target_w target_h
                (Py.range_list 1 (Slides_Count p + 1))) with (count := 0)
      as [_ Ho].
    { intros i Hi. apply range_list_In in Hi.
      destruct (Hok i ltac:(lia)) as [Hs He]. split; [exact Hs | apply He]. }
    rewrite range_list_length in Ho.
    replace (0 + Z.of_nat (Z.to_nat (Slides_Count p + 1 - 1)))
      with (Slides_Count p) in Ho by lia.
    cbn [bind print lift Py.format_d Py.add_one Py.call2 Py.index rbind].
    destruct (export_loop h p (abspath h output_dir) target_w target_h
                (Py.range_list 1 (Slides_Count p + 1)) 0) as [t' r'].
    cbn [outcome snd] in Ho. subst r'.
    cbn [bind print try_except trace fst app].
    eexists (t ++ [_; _; _])%list. split; cycle 1.
    - rewrite <- !app_assoc. reflexivity.
    - apply Forall_app. split; [exact Hprints | repeat constructor]. }
  destruct Hlog as (t & Hprints & Hlog). rewrite Hlog.
  destruct (export_loop_all_ok h p (abspath h output_dir) target_w target_h
              (Py.range_list 1 (Slides_Count p + 1))) with (count := 0)
    as [Ht _].
  { intros i Hi. apply range_list_In in Hi.
    destruct (Hok i ltac:(lia)) as [Hs He]. split; [exact Hs | apply He]. }
  assert (Hexported :
            exported (output_dir_events h (abspath h output_dir)
                      ++ dispatch_event true
                      :: Call (Open (abspath h pptx) false) true
                      :: (t ++ trace (export_loop h p (abspath h output_dir)
                                        target_w target_h
                                        (Py.range_list 1 (Slides_Count p + 1)) 0)
                          ++ [Print ("Done! " ++ Py.string_of_Z (Slides_Count p)
                                     ++ " images saved to '"
                                     ++ abspath h output_dir ++ "'.")])
                      ++ [close_event p])
            = planned_paths h (abspath h output_dir) p).
  { rewrite exported_app, Hevents. cbn [exported app dispatch_event].
    rewrite !exported_app, (exported_prints t Hprints), Ht.
    cbn [exported close_event app]. now rewrite !app_nil_r. }
  split; [exact Hexported |].
  split; [rewrite Hexported; now apply planned_paths_length |].
  apply in_or_app. right. right. right.
  apply in_or_app. left. apply in_or_app. right.
  apply in_or_app. right. now left.
Qed.

Lemma topng_converts_whole_document_witness :
  exists_ (Samples.office_pc Samples.deck)
    (abspath (Samples.office_pc Samples.deck) "deck.pptx") = true
  /\ output_dir_error (Samples.office_pc Samples.deck)
       (abspath (Samples.office_pc Samples.deck) "out") = None
  /\ Dispatch (Samples.office_pc Samples.deck) = None
  /\ Presentations_Open (Samples.office_pc Samples.deck)
       (abspath (Samples.office_pc Samples.deck) "deck.pptx")
     = inr Samples.deck
  /\ 0 <= Slides_Count Samples.deck
  /\ outcome (target_resolution (Samples.office_pc Samples.deck)
                (SlideWidth Samples.deck) (SlideHeight Samples.deck) PyNone)
     = Ok (1920, 1080)
  /\ (forall i, 1 <= i <= Slides_Count Samples.deck ->
        Slides Samples.deck i = None
        /\ forall path, Export Samples.deck i path 1920 1080 = None)
  /\ (exported (trace (topng (Samples.office_pc Samples.deck) "deck.pptx" "out"
                         PyBuiltinRange PyNone))
      = planned_paths (Samples.office_pc Samples.deck)
          (abspath (Samples.office_pc Samples.deck) "out") Samples.deck
      /\ List.length
           (exported (trace (topng (Samples.office_pc Samples.deck)
                               "deck.pptx" "out" PyBuiltinRange PyNone)))
         = Z.to_nat (Slides_Count Samples.deck)
      /\ In (Print ("Done! " ++ Py.string_of_Z (Slides_Count Samples.deck)
                    ++ " images saved to '"
                    ++ abspath (Samples.office_pc Samples.deck) "out" ++ "'."))
            (trace (topng (Samples.office_pc Samples.deck) "deck.pptx" "out"
                      PyBuiltinRange PyNone))).
Proof.
  assert (Hslides : forall i, 1 <= i <= Slides_Count Samples.deck ->
            Slides Samples.deck i = None
            /\ forall path, Export Samples.deck i path 1920 1080 = None).
  { intros i Hi. cbn in *. split; [| reflexivity].
    destruct (Z.leb_spec 1 i), (Z.leb_spec i 3); try reflexivity; lia. }
  split; [reflexivity |]. split; [reflexivity |]. split; [reflexivity |].
  split; [reflexivity |]. split; [cbn; lia |].
  split; [vm_compute; reflexivity |].
  split; [exact Hslides |].
  apply (topng_converts_whole_document (Samples.office_pc Samples.deck)
           "deck.pptx" "out" PyNone Samples.deck 1920 1080);
    try reflexivity; [cbn; lia | exact Hslides].
Defined.

(** ** One size and one naming scheme per run *)

Lemma print_export_as_planned h output_path target_w target_h ev :
  is_print ev -> export_as_planned h output_path target_w target_h ev.
Proof. destruct ev; [intros _; exact I | contradiction]. Qed.

Lemma convert_exports_as_planned h p pptx output_path range scale :
  exists target_w target_h,
    Forall (export_as_planned h output_path target_w target_h)
      (trace (convert h p pptx output_path range scale)).
Proof.
  unfold convert. rewrite trace_bind, outcome_lift, trace_lift. cbn [app].
  destruct (slide_range range (Slides_Count p)) as [[start_slide end_slide] | e];
    [| exists 0, 0; constructor].
  rewrite trace_bind.
  pose proof (target_resolution_prints h (SlideWidth p) (SlideHeight p) scale)
    as Hprints.
  destruct (target_resolution h (SlideWidth p) (SlideHeight p) scale)
    as [t [[target_w target_h] | e]]; cbn [trace outcome fst snd] in Hprints |- *.
  2: { exists 0, 0. rewrite app_nil_r.
       eapply Forall_impl; [| exact Hprints].
       apply print_export_as_planned. }
  exists target_w, target_h.
  apply Forall_app. split.
  { eapply Forall_impl; [| exact Hprints]. apply print_export_as_planned. }
  forall_trace. apply export_loop_uses_target.
Qed.

(** X13: every run of [topng] has one target size: all its [Export] calls
    ask for a PNG of that one width and height, each at the path of
    [Slide_<i>.png], for the slide [i] exported, in the absolute output
    directory. *)
Theorem topng_exports_as_planned h pptx output_dir range scale :
  exists target_w target_h,
    Forall (export_as_planned h (abspath h output_dir) target_w target_h)
      (trace (topng h pptx output_dir range scale)).
Proof.
  pose proof (topng_shape h pptx output_dir range scale) as Hshape.
  cbv zeta in Hshape.
  assert (Hdir : forall target_w target_h,
             Forall (export_as_planned h (abspath h output_dir) target_w target_h)
               (output_dir_events h (abspath h output_dir))).
  { intros. unfold output_dir_events.
    destruct (exists_ h (abspath h output_dir)); repeat constructor. }
  destruct (exists_ h (abspath h pptx));
    [| exists 0, 0; rewrite Hshape; repeat constructor].
  destruct (output_dir_error h (abspath h output_dir));
    [exists 0, 0; rewrite Hshape; repeat constructor |].
  destruct (Dispatch h).
  { exists 0, 0. rewrite Hshape. cbn [trace fst].
    apply Forall_app. split; [apply Hdir | repeat constructor]. }
  rewrite Hshape, open_and_convert_shape. clear Hshape.
  destruct (Presentations_Open h (abspath h pptx)) as [e | p]; cbn [trace fst].
  { exists 0, 0. apply Forall_app. split; [apply Hdir | repeat constructor]. }
  destruct (convert_exports_as_planned h p pptx (abspath h output_dir)
              range scale) as (target_w & target_h & Hconv).
  exists target_w, target_h.
  apply Forall_app. split; [apply Hdir |].
  constructor; [exact I |]. constructor; [exact I |].
  apply Forall_app. split; [| repeat constructor].
  unfold conversion_log. apply Forall_try_except; [exact Hconv | intros e].
  now apply Forall_print.
Qed.

(** ** Which failures are caught, which are swallowed, which propagate *)

(** C3, amended: a failure of [os.makedirs] and a failure of
    [presentation.Close()] reach the caller.  A failure of [Dispatch], of
    [Open] or of a step of the conversion is caught by one of the two
    handlers and printed on the console, and [topng] then returns normally
    unless [Close] fails.  A failure inside the screen-based resolution is
    caught by the inner handler and printed nowhere: step 5 is then the run
    of the 2x fallback.  (Console output and path normalisation are taken to
    succeed; their failures are not part of the statement.) *)
Theorem topng_failures h pptx output_dir range scale :
  (forall e,
     exists_ h (abspath h pptx) = true ->
     output_dir_error h (abspath h output_dir) = Some e ->
     outcome (topng h pptx output_dir range scale) = Raise e)
  /\ (forall p e,
        exists_ h (abspath h pptx) = true ->
        output_dir_error h (abspath h output_dir) = None ->
        Dispatch h = None ->
        Presentations_Open h (abspath h pptx) = inr p ->
        Close p = Some e ->
        outcome (topng h pptx output_dir range scale) = Raise e)
  /\ (forall handler e,
        caught h pptx output_dir range scale = Some (handler, e) ->
        In (Print (report handler e))
           (trace (topng h pptx output_dir range scale))
        /\ (outcome (topng h pptx output_dir range scale) = Ok tt
            \/ exists p e',
                 Presentations_Open h (abspath h pptx) = inr p
                 /\ Close p = Some e'
                 /\ outcome (topng h pptx output_dir range scale) = Raise e'))
  /\ (forall slide_width slide_height e,
        Py.truthy scale = false ->
        outcome (auto_resolution h slide_width slide_height) = Raise e ->
        target_resolution h slide_width slide_height scale
        = fallback_resolution slide_width slide_height).
Proof.
  destruct (topng_outcome_and_reports h pptx output_dir range scale)
    as [Houtcome Hreports].
  split; [| split; [| split]].
  - intros e Hexists Hdir. rewrite Houtcome. unfold uncaught.
    now rewrite Hexists, Hdir.
  - intros p e Hexists Hdir Hdispatch Hopen Hclose. rewrite Houtcome.
    unfold uncaught. now rewrite Hexists, Hdir, Hdispatch, Hopen, Hclose.
  - intros handler e Hcaught. split; [now apply Hreports |].
    rewrite Houtcome. unfold uncaught. unfold caught in Hcaught.
    destruct (exists_ h (abspath h pptx)); [| discriminate].
    destruct (output_dir_error h (abspath h output_dir)); [discriminate |].
    destruct (Dispatch h); [now left |].
    destruct (Presentations_Open h (abspath h pptx)) as [e0 | p];
      [now left |].
    destruct (Close p) as [e' |] eqn:Hclose; [| now left].
    right. now exists p, e'.
  - intros slide_width slide_height e Hscale Hraise.
    now apply target_resolution_falls_back with (e := e).
Qed.

(** A screen failure leaves no error line: without [ctypes.windll] the
    documented call logs the fallback mode and then fails at the loop as
    every call does. *)
Example topng_screen_failure_is_silent :
  trace (topng (Scenarios.no_ctypes_pc Samples.deck) "deck.pptx" "out"
           PyNone PyNone)
  = [Call (os_makedirs "C:\work\out") true;
     Print "Created output directory: C:\work\out";
     Call (win32com_Dispatch "PowerPoint.Application") true;
     Call (Open "C:\work\deck.pptx" false) true;
     Print "Mode: Fallback Resolution (2x)";
     Print "Processing 'deck.pptx'...";
     Print "Target Size: 1920x1080 px";
     Print "Converting slides 1 to 3...";
     Print "An error occurred during conversion: 'NoneType' object is not callable";
     Call Presentation_Close true].
Proof. vm_compute. reflexivity. Qed.
